(** * Knowledge-gap agent: the analyzer agents and the orchestrator

    A shallow embedding of [backend/app/agents]: [gap_detector.py],
    [faq_generator.py], [content_analyzer.py] and [orchestrator.py].

    Python values that cross the boundary with the completion service are
    JSON values ([pyval]); Python floats are binary64 ([PrimFloat.float]);
    Python ints are [Z]; dicts are association lists in insertion order.
    Strings are [string]: a character of the model stands for one code
    point of the Python string.

    The chain [prompt | llm | parser], the clock, [uuid4], the builtin
    [str()] and pydantic's conversions between types are not code of the
    repository: they are the fields of the class [Runtime]. *)

From Stdlib Require Import ZArith List String Ascii Bool Lia.
From Stdlib Require Import Uint63 PrimFloat SpecFloat FloatOps.
From Stdlib Require Import DecimalString.
Import ListNotations.

Open Scope list_scope.
Open Scope string_scope.

Set Warnings "-register-all".

(** ** Python values *)

Inductive pyval : Type :=
| PNone
| PBool (b : bool)
| PInt (z : Z)
| PFloat (f : float)
| PStr (s : string)
| PList (l : list pyval)
| PDict (d : list (string * pyval)).

(** [Dict[str, Any]]: keys in insertion order. *)
Definition pydict : Type := list (string * pyval).

(** [d.get(k)]. *)
Fixpoint dict_get (k : string) (d : pydict) : option pyval :=
  match d with
  | [] => None
  | (k', v) :: rest => if String.eqb k k' then Some v else dict_get k rest
  end.

(** [d.get(k, default)]. *)
Definition get (d : pydict) (k : string) (default : pyval) : pyval :=
  match dict_get k d with
  | Some v => v
  | None => default
  end.

(** [d[k] = v]: an existing key keeps its place, a new key goes last. *)
Fixpoint dict_set (k : string) (v : pyval) (d : pydict) : pydict :=
  match d with
  | [] => [(k, v)]
  | (k', v') :: rest =>
      if String.eqb k k' then (k, v) :: rest else (k', v') :: dict_set k v rest
  end.

(** The items of the list stored under [k]; nothing when [k] is missing. *)
Definition response_items (k : string) (d : pydict) : list pyval :=
  match dict_get k d with
  | Some (PList l) => l
  | _ => []
  end.

(** [len(xs)] as a Python int. *)
Definition len {A : Type} (xs : list A) : Z := Z.of_nat (List.length xs).

(** Truth value of an optional list argument ([None] and [[]] are false). *)
Definition truthy {A : Type} (xs : option (list A)) : bool :=
  match xs with
  | Some (_ :: _) => true
  | _ => false
  end.

(** [len(xs) if xs else 0]. *)
Definition len_or_0 {A : Type} (xs : option (list A)) : Z :=
  match xs with
  | Some l => if truthy xs then len l else 0%Z
  | None => 0%Z
  end.

(** [xs.append(x)]. *)
Definition append {A : Type} (xs : list A) (x : A) : list A := (xs ++ [x])%list.

(** [text or placeholder]. *)
Definition or_else (text placeholder : string) : string :=
  match text with
  | EmptyString => placeholder
  | _ => text
  end.

Definition nl : string := String (ascii_of_nat 10) EmptyString.
Definition dquote : string := String (ascii_of_nat 34) EmptyString.

(** ** Exceptions and results *)

Inductive exn : Type :=
| ChainError (msg : string)  (* raised inside [chain.ainvoke]: service or JSON parser *)
| ValidationError            (* pydantic: the mapping does not fit the model *)
| TypeError                  (* slicing or joining a value of the wrong type *)
| AttributeError             (* attribute read on a value that is not a model *)
| SliceOfDictError.          (* [d[:n]] on a dict: a TypeError (unhashable slice)
                                up to Python 3.11, a KeyError from 3.12 on *)

Definition result (A : Type) : Type := (exn + A)%type.

Definition ok {A : Type} (a : A) : result A := inr a.
Definition fail {A : Type} (e : exn) : result A := inl e.

Definition rbind {A B : Type} (m : result A) (k : A -> result B) : result B :=
  match m with
  | inl e => inl e
  | inr a => k a
  end.

Notation "x <-? m ;; k" := (rbind m (fun x => k))
  (at level 61, m at next level, right associativity).

(** A list comprehension whose body may raise: left to right, first
    exception wins. *)
Fixpoint comprehension {A B : Type} (f : A -> result B) (xs : list A)
  : result (list B) :=
  match xs with
  | [] => ok []
  | x :: rest =>
      y <-? f x ;;
      ys <-? comprehension f rest ;;
      ok (y :: ys)
  end.

(** [v[:n]]: defined on strings and lists; None and the numbers are not
    subscriptable (TypeError); on a dict the exception depends on the
    interpreter and is kept apart. *)
Definition py_slice (n : nat) (v : pyval) : result pyval :=
  match v with
  | PStr s => ok (PStr (substring 0 n s))
  | PList l => ok (PList (firstn n l))
  | PDict _ => fail SliceOfDictError
  | _ => fail TypeError
  end.

(** [sep.join(xs)]: every item must be a str. *)
Definition py_join (sep : string) (xs : list pyval) : result string :=
  strs <-? comprehension
             (fun v => match v with PStr s => ok s | _ => fail TypeError end) xs ;;
  ok (String.concat sep strs).

(** ** Number formatting in f-strings *)

(** [f"{n}"] for an int. *)
Definition format_int (z : Z) : string := NilZero.string_of_int (Z.to_int z).

(** Round the rational [n/d] ([d > 0], [n >= 0]) to the nearest integer, ties
    to even. *)
Definition round_half_even (n d : Z) : Z :=
  let q := (n / d)%Z in
  let r := (n mod d)%Z in
  match (2 * r ?= d)%Z with
  | Lt => q
  | Gt => (q + 1)%Z
  | Eq => if Z.even q then q else (q + 1)%Z
  end.

(** [f"{x:.1f}"]: the exact binary value, correctly rounded to one
    decimal. *)
Definition format_1f (x : float) : string :=
  match Prim2SF x with
  | S754_nan => "nan"
  | S754_infinity s => if s then "-inf" else "inf"
  | S754_zero s => if s then "-0.0" else "0.0"
  | S754_finite s m e =>
      let tenths :=
        match e with
        | Zneg p => round_half_even (Zpos m * 10) (Z.pow_pos 2 p)
        | _ => (Zpos m * 2 ^ e * 10)%Z
        end in
      (if s then "-" else "")
        ++ format_int (tenths / 10) ++ "." ++ format_int (tenths mod 10)
  end.

(** Two decimal digits, zero-padded. *)
Definition two_digits (n : Z) : string :=
  format_int (n / 10) ++ format_int (n mod 10).

(** [f"{x:.2f}"]. *)
Definition format_2f (x : float) : string :=
  match Prim2SF x with
  | S754_nan => "nan"
  | S754_infinity s => if s then "-inf" else "inf"
  | S754_zero s => if s then "-0.00" else "0.00"
  | S754_finite s m e =>
      let hundredths :=
        match e with
        | Zneg p => round_half_even (Zpos m * 100) (Z.pow_pos 2 p)
        | _ => (Zpos m * 2 ^ e * 100)%Z
        end in
      (if s then "-" else "")
        ++ format_int (hundredths / 100) ++ "." ++ two_digits (hundredths mod 100)
  end.

(** ** The pydantic models of the agents *)

Module DetectedGap.
Record t : Type := Build {
    title : string;
    description : string;
    topic : string;
    priority : string;
    evidence : list string;
    search_queries : list string;
    impact_score : float;
    suggested_content : string
  }.
End DetectedGap.

Module GapDetectionResult.
Record t : Type := Build {
    gaps : list DetectedGap.t;
    analysis_summary : string;
    total_queries_analyzed : Z;
    total_tickets_analyzed : Z;
    coverage_score : float
  }.
End GapDetectionResult.

Module GeneratedFAQ.
Record t : Type := Build {
    question : string;
    answer : string;
    category : string;
    confidence_score : float;
    source_summary : string;
    related_questions : list string;
    tags : list string
  }.
End GeneratedFAQ.

Module FAQGenerationResult.
Record t : Type := Build {
    faqs : list GeneratedFAQ.t;
    total_sources_analyzed : Z;
    categories_covered : list string;
    generation_summary : string
  }.
End FAQGenerationResult.

Module ContentQuality.
Record t : Type := Build {
    content_id : string;
    title : string;
    completeness_score : float;
    clarity_score : float;
    accuracy_score : float;
    freshness_score : float;
    overall_score : float;
    issues : list string;
    improvements : list string
  }.
End ContentQuality.

Module CoverageAnalysis.
Record t : Type := Build {
    total_topics : Z;
    covered_topics : Z;
    coverage_percentage : float;
    well_covered : list string;
    partially_covered : list string;
    not_covered : list string;
    recommendations : list string
  }.
End CoverageAnalysis.

Module ContentSuggestionOutput.
Record t : Type := Build {
    title : string;
    summary : string;
    outline : list string;
    priority : string;
    target_audience : string;
    estimated_effort : string;
    seo_keywords : list string;
    related_content : list string
  }.
End ContentSuggestionOutput.

(** What an agent method hands back: [Model r] when the parsed response
    was a dict and went through the pydantic constructor, [AsIs v] on the
    [return result] path ([v] is a JSON value that is not a dict). *)
Inductive returned (T : Type) : Type :=
| Model (r : T)
| AsIs (v : pyval).

Arguments Model {T} r.
Arguments AsIs {T} v.

(** ** orchestrator.py: the report *)

Module AnalysisReport.
Record t : Type := Build {
  id : string;
  gaps_found : Z;
  faqs_generated : Z;
  suggestions_created : Z;
  coverage_score : float;
  gaps : list DetectedGap.t;
  faqs : list GeneratedFAQ.t;
  suggestions : list (returned ContentSuggestionOutput.t);
  summary : string;
  created_at : Z;
  duration_seconds : float
}.

(** The assignments of [__init__], given the fresh id and the creation time. *)
Definition init (id : string) (created_at : Z) : t :=
  Build id 0%Z 0%Z 0%Z 0%float [] [] [] "" created_at 0%float.

(** [report.gaps_found = v]. *)
Definition set_gaps_found (v : Z) (r : t) : t :=
  Build (id r) v (faqs_generated r) (suggestions_created r) (coverage_score r) (gaps r) (faqs r) (suggestions r) (summary r) (created_at r) (duration_seconds r).

(** [report.faqs_generated = v]. *)
Definition set_faqs_generated (v : Z) (r : t) : t :=
  Build (id r) (gaps_found r) v (suggestions_created r) (coverage_score r) (gaps r) (faqs r) (suggestions r) (summary r) (created_at r) (duration_seconds r).

(** [report.suggestions_created = v]. *)
Definition set_suggestions_created (v : Z) (r : t) : t :=
  Build (id r) (gaps_found r) (faqs_generated r) v (coverage_score r) (gaps r) (faqs r) (suggestions r) (summary r) (created_at r) (duration_seconds r).

(** [report.coverage_score = v]. *)
Definition set_coverage_score (v : float) (r : t) : t :=
  Build (id r) (gaps_found r) (faqs_generated r) (suggestions_created r) v (gaps r) (faqs r) (suggestions r) (summary r) (created_at r) (duration_seconds r).

(** [report.gaps = v]. *)
Definition set_gaps (v : list DetectedGap.t) (r : t) : t :=
  Build (id r) (gaps_found r) (faqs_generated r) (suggestions_created r) (coverage_score r) v (faqs r) (suggestions r) (summary r) (created_at r) (duration_seconds r).

(** [report.faqs = v]. *)
Definition set_faqs (v : list GeneratedFAQ.t) (r : t) : t :=
  Build (id r) (gaps_found r) (faqs_generated r) (suggestions_created r) (coverage_score r) (gaps r) v (suggestions r) (summary r) (created_at r) (duration_seconds r).

(** [report.suggestions = v]. *)
Definition set_suggestions (v : list (returned ContentSuggestionOutput.t)) (r : t) : t :=
  Build (id r) (gaps_found r) (faqs_generated r) (suggestions_created r) (coverage_score r) (gaps r) (faqs r) v (summary r) (created_at r) (duration_seconds r).

(** [report.summary = v]. *)
Definition set_summary (v : string) (r : t) : t :=
  Build (id r) (gaps_found r) (faqs_generated r) (suggestions_created r) (coverage_score r) (gaps r) (faqs r) (suggestions r) v (created_at r) (duration_seconds r).

(** [report.duration_seconds = v]. *)
Definition set_duration_seconds (v : float) (r : t) : t :=
  Build (id r) (gaps_found r) (faqs_generated r) (suggestions_created r) (coverage_score r) (gaps r) (faqs r) (suggestions r) (summary r) (created_at r) v.

End AnalysisReport.

(** ** content_analyzer.py: the result of the bulk analysis *)

Module ContentAnalysisResult.
Record t : Type := Build {
  quality_assessments : list (returned ContentQuality.t);
  coverage : option CoverageAnalysis.t;
  suggestions : list ContentSuggestionOutput.t;
  summary : string
}.

(** [ContentAnalysisResult()]: every field at its default. *)
Definition init : t := Build [] None [] "".

(** [result.quality_assessments.append(q)]. *)
Definition append_assessment (q : returned ContentQuality.t) (r : t) : t :=
  Build (append (quality_assessments r) q) (coverage r) (suggestions r) (summary r).

(** [result.summary = v]. *)
Definition set_summary (v : string) (r : t) : t :=
  Build (quality_assessments r) (coverage r) (suggestions r) v.

End ContentAnalysisResult.

(** ** The world outside the repository *)

(** The six [prompt | llm | parser] chains built in the agents. *)
Inductive chain_id : Type :=
| GapChain          (* GapDetectorAgent.prompt, parser for GapDetectionResult *)
| FAQChain          (* FAQGeneratorAgent.prompt, parser for FAQGenerationResult *)
| ImproveChain      (* improve_prompt, single_parser for GeneratedFAQ *)
| QualityChain      (* analyze_quality, quality_parser *)
| CoverageChain     (* analyze_coverage, coverage_parser *)
| SuggestionChain.  (* suggest_content, suggestion_parser *)

(** One [chain.ainvoke(inputs)]. *)
Record call : Type := Call {
  chain : chain_id;
  inputs : list (string * pyval)
}.

Class Runtime : Type := {
  (** state of the completion service, the clock and the id source *)
  Svc : Type;
  (** [await chain.ainvoke(inputs)]: an exception, or the JSON value the
      [JsonOutputParser] produced *)
  chain_ainvoke : call -> Svc -> result pyval * Svc;
  (** [time.time()] *)
  time_time : Svc -> float * Svc;
  (** [str(uuid.uuid4())] *)
  uuid4 : Svc -> string * Svc;
  (** [datetime.utcnow()], as a timestamp *)
  utcnow : Svc -> Z * Svc;
  (** the builtin [str()], as applied by f-strings *)
  py_str : pyval -> string;
  (** [parser.get_format_instructions()] *)
  get_format_instructions : chain_id -> string;
  (** pydantic's conversion to [int] of a value that is not an int *)
  coerce_int : pyval -> option Z;
  (** pydantic's conversion to [float] of a value that is not a float *)
  coerce_float : pyval -> option float
}.

Section Agents.

Context {R : Runtime}.

(** The service state, and the calls made so far with their outcomes. *)
Record World : Type := MkWorld {
  svc : Svc;
  log : list (call * result pyval)
}.

Definition M (A : Type) : Type := World -> result A * World.

Definition ret {A : Type} (a : A) : M A := fun w => (ok a, w).

Definition raise {A : Type} (e : exn) : M A := fun w => (fail e, w).

Definition lift {A : Type} (r : result A) : M A := fun w => (r, w).

Definition bind {A B : Type} (m : M A) (k : A -> M B) : M B :=
  fun w =>
    match m w with
    | (inl e, w') => (inl e, w')
    | (inr a, w') => k a w'
    end.

Notation "x <- m ;; k" := (bind m (fun x => k))
  (at level 61, m at next level, right associativity).

Definition ainvoke (c : call) : M pyval :=
  fun w =>
    let (outcome, s) := chain_ainvoke c (svc w) in
    (outcome, {| svc := s; log := append (log w) (c, outcome) |}).

Definition now : M float :=
  fun w => let (t, s) := time_time (svc w) in (ok t, {| svc := s; log := log w |}).

Definition new_uuid : M string :=
  fun w => let (u, s) := uuid4 (svc w) in (ok u, {| svc := s; log := log w |}).

Definition new_timestamp : M Z :=
  fun w => let (t, s) := utcnow (svc w) in (ok t, {| svc := s; log := log w |}).

(** Reading an attribute of what an agent returned. *)
Definition attr {T : Type} (x : returned T) : M T :=
  match x with
  | Model r => ret r
  | AsIs _ => raise AttributeError
  end.

(** ** Pydantic validation *)

(** A [str] field takes a str. *)
Definition validate_str (v : pyval) : option string :=
  match v with
  | PStr s => Some s
  | _ => None
  end.

(** An [int] field takes an int as it is. *)
Definition validate_int (v : pyval) : option Z :=
  match v with
  | PInt z => Some z
  | _ => coerce_int v
  end.

(** A [float] field takes a float as it is: no field of the agents'
    models declares a bound. *)
Definition validate_float (v : pyval) : option float :=
  match v with
  | PFloat f => Some f
  | _ => coerce_float v
  end.

Fixpoint validate_items {A : Type} (f : pyval -> option A) (l : list pyval)
  : option (list A) :=
  match l with
  | [] => Some []
  | v :: rest =>
      match f v, validate_items f rest with
      | Some a, Some r => Some (a :: r)
      | _, _ => None
      end
  end.

(** A [List[...]] field. *)
Definition validate_list {A : Type} (f : pyval -> option A) (v : pyval)
  : option (list A) :=
  match v with
  | PList l => validate_items f l
  | _ => None
  end.

(** A field without default. *)
Definition required {A : Type} (f : pyval -> option A) (k : string) (d : pydict)
  : option A :=
  match dict_get k d with
  | Some v => f v
  | None => None
  end.

(** A field with a default. *)
Definition defaulted {A : Type} (f : pyval -> option A) (k : string)
  (default : A) (d : pydict) : option A :=
  match dict_get k d with
  | Some v => f v
  | None => Some default
  end.

Notation "x <-- m ;; k" :=
  (match m with Some x => k | None => None end)
  (at level 61, m at next level, right associativity).

Definition validate_DetectedGap (v : pyval) : option DetectedGap.t :=
  match v with
  | PDict d =>
      title <-- required validate_str "title" d ;;
      description <-- required validate_str "description" d ;;
      topic <-- required validate_str "topic" d ;;
      priority <-- required validate_str "priority" d ;;
      evidence <-- required (validate_list validate_str) "evidence" d ;;
      search_queries <-- required (validate_list validate_str) "search_queries" d ;;
      impact_score <-- required validate_float "impact_score" d ;;
      suggested_content <-- required validate_str "suggested_content" d ;;
      Some (DetectedGap.Build title description topic priority evidence
              search_queries impact_score suggested_content)
  | _ => None
  end.

(** The constructor [GapDetectionResult], called with the items of [d] as keywords. *)
Definition validate_GapDetectionResult (d : pydict)
  : option GapDetectionResult.t :=
  gaps <-- defaulted (validate_list validate_DetectedGap) "gaps" [] d ;;
  analysis_summary <-- required validate_str "analysis_summary" d ;;
  total_queries_analyzed <-- defaulted validate_int "total_queries_analyzed" 0%Z d ;;
  total_tickets_analyzed <-- defaulted validate_int "total_tickets_analyzed" 0%Z d ;;
  coverage_score <-- defaulted validate_float "coverage_score" 0%float d ;;
  Some (GapDetectionResult.Build gaps analysis_summary total_queries_analyzed
          total_tickets_analyzed coverage_score).

(** The constructor [GeneratedFAQ], called with the items of [d] as keywords. *)
Definition validate_GeneratedFAQ_dict (d : pydict) : option GeneratedFAQ.t :=
  question <-- required validate_str "question" d ;;
  answer <-- required validate_str "answer" d ;;
  category <-- required validate_str "category" d ;;
  confidence_score <-- required validate_float "confidence_score" d ;;
  source_summary <-- required validate_str "source_summary" d ;;
  related_questions <-- required (validate_list validate_str) "related_questions" d ;;
  tags <-- required (validate_list validate_str) "tags" d ;;
  Some (GeneratedFAQ.Build question answer category confidence_score
          source_summary related_questions tags).

Definition validate_GeneratedFAQ (v : pyval) : option GeneratedFAQ.t :=
  match v with
  | PDict d => validate_GeneratedFAQ_dict d
  | _ => None
  end.

(** The constructor [FAQGenerationResult], called with the items of [d] as keywords. *)
Definition validate_FAQGenerationResult (d : pydict)
  : option FAQGenerationResult.t :=
  faqs <-- defaulted (validate_list validate_GeneratedFAQ) "faqs" [] d ;;
  total_sources_analyzed <-- defaulted validate_int "total_sources_analyzed" 0%Z d ;;
  categories_covered <-- defaulted (validate_list validate_str) "categories_covered" [] d ;;
  generation_summary <-- defaulted validate_str "generation_summary" "" d ;;
  Some (FAQGenerationResult.Build faqs total_sources_analyzed
          categories_covered generation_summary).

(** The constructor [ContentQuality], called with the items of [d] as keywords. *)
Definition validate_ContentQuality (d : pydict) : option ContentQuality.t :=
  content_id <-- required validate_str "content_id" d ;;
  title <-- required validate_str "title" d ;;
  completeness_score <-- required validate_float "completeness_score" d ;;
  clarity_score <-- required validate_float "clarity_score" d ;;
  accuracy_score <-- required validate_float "accuracy_score" d ;;
  freshness_score <-- required validate_float "freshness_score" d ;;
  overall_score <-- required validate_float "overall_score" d ;;
  issues <-- required (validate_list validate_str) "issues" d ;;
  improvements <-- required (validate_list validate_str) "improvements" d ;;
  Some (ContentQuality.Build content_id title completeness_score clarity_score
          accuracy_score freshness_score overall_score issues improvements).

(** The constructor [CoverageAnalysis], called with the items of [d] as keywords. *)
Definition validate_CoverageAnalysis (d : pydict) : option CoverageAnalysis.t :=
  total_topics <-- required validate_int "total_topics" d ;;
  covered_topics <-- required validate_int "covered_topics" d ;;
  coverage_percentage <-- required validate_float "coverage_percentage" d ;;
  well_covered <-- required (validate_list validate_str) "well_covered" d ;;
  partially_covered <-- required (validate_list validate_str) "partially_covered" d ;;
  not_covered <-- required (validate_list validate_str) "not_covered" d ;;
  recommendations <-- required (validate_list validate_str) "recommendations" d ;;
  Some (CoverageAnalysis.Build total_topics covered_topics coverage_percentage
          well_covered partially_covered not_covered recommendations).

(** The constructor [ContentSuggestionOutput], called with the items of [d] as keywords. *)
Definition validate_ContentSuggestionOutput (d : pydict)
  : option ContentSuggestionOutput.t :=
  title <-- required validate_str "title" d ;;
  summary <-- required validate_str "summary" d ;;
  outline <-- required (validate_list validate_str) "outline" d ;;
  priority <-- required validate_str "priority" d ;;
  target_audience <-- required validate_str "target_audience" d ;;
  estimated_effort <-- required validate_str "estimated_effort" d ;;
  seo_keywords <-- defaulted (validate_list validate_str) "seo_keywords" [] d ;;
  related_content <-- defaulted (validate_list validate_str) "related_content" [] d ;;
  Some (ContentSuggestionOutput.Build title summary outline priority
          target_audience estimated_effort seo_keywords related_content).

(** [return Model( **result )]: the constructor raises when validation
    fails. *)
Definition construct {T : Type} (validate : pydict -> option T) (d : pydict)
  : M (returned T) :=
  match validate d with
  | Some r => ret (Model r)
  | None => raise ValidationError
  end.

(** The value of an optional list argument once it is known to be true. *)
Definition items {A : Type} (xs : option (list A)) : list A :=
  match xs with
  | Some l => l
  | None => []
  end.

(** ** gap_detector.py *)

(** The line of one search query; [q.get('query', q)] falls back to the
    record itself. Shared by [detect], [detect_from_searches] and the FAQ
    generator's [generate]. *)
Definition query_line (q : pydict) : string :=
  "- " ++ dquote ++ py_str (get q "query" (PDict q)) ++ dquote
    ++ " (count: " ++ py_str (get q "count" (PInt 1)) ++ ")".

(** The inputs of the gap detector's prompt. *)
Definition gap_inputs (search_queries support_tickets user_feedback
  existing_content : string) : list (string * pyval) :=
  [ ("search_queries", PStr search_queries);
    ("support_tickets", PStr support_tickets);
    ("user_feedback", PStr user_feedback);
    ("existing_content", PStr existing_content);
    ("format_instructions", PStr (get_format_instructions GapChain)) ].

(** The human message of [GapDetectorAgent.prompt], filled in. *)
Definition gap_human_message (search_queries support_tickets user_feedback
  existing_content : string) : string :=
  "Analyze the following data to identify knowledge gaps:" ++ nl ++ nl
    ++ "## Zero-Result Search Queries" ++ nl
    ++ search_queries ++ nl ++ nl
    ++ "## Support Tickets Without Documentation" ++ nl
    ++ support_tickets ++ nl ++ nl
    ++ "## User Feedback" ++ nl
    ++ user_feedback ++ nl ++ nl
    ++ "## Existing Content (for reference)" ++ nl
    ++ existing_content ++ nl ++ nl
    ++ "Identify all knowledge gaps and prioritize them.".

(** ["\n".join(existing_content[:n]) if existing_content else placeholder]. *)
Definition join_titles (n : nat) (existing_content : option (list pyval))
  (placeholder : string) : result string :=
  if truthy existing_content
  then py_join nl (firstn n (items existing_content))
  else ok placeholder.

Definition detect_from_searches (zero_result_queries : list pydict)
  (existing_content : option (list pyval))
  : M (returned GapDetectionResult.t) :=
  let queries_text :=
    String.concat nl (map query_line (firstn 50 zero_result_queries)) in
  content <- lift (join_titles 20 existing_content "No existing content provided") ;;
  result <- ainvoke (Call GapChain
              (gap_inputs (or_else queries_text "No search data available")
                 "No ticket data provided"
                 "No feedback data provided"
                 content)) ;;
  match result with
  | PDict d =>
      let d := dict_set "total_queries_analyzed" (PInt (len zero_result_queries)) d in
      construct validate_GapDetectionResult d
  | _ => ret (AsIs result)
  end.

Definition ticket_block_from_tickets (t : pydict) : result string :=
  description <-? py_slice 300 (get t "description" (PStr "")) ;;
  ok ("Ticket: " ++ py_str (get t "subject" (PStr "No subject")) ++ nl
        ++ "Category: " ++ py_str (get t "category" (PStr "Unknown")) ++ nl
        ++ "Description: " ++ py_str description).

Definition detect_from_tickets (support_tickets : list pydict)
  (existing_content : option (list pyval))
  : M (returned GapDetectionResult.t) :=
  blocks <- lift (comprehension ticket_block_from_tickets
                    (firstn 30 support_tickets)) ;;
  let tickets_text := String.concat (nl ++ nl) blocks in
  content <- lift (join_titles 20 existing_content "No existing content provided") ;;
  result <- ainvoke (Call GapChain
              (gap_inputs "No search data provided"
                 (or_else tickets_text "No ticket data available")
                 "No feedback data provided"
                 content)) ;;
  match result with
  | PDict d =>
      let d := dict_set "total_tickets_analyzed" (PInt (len support_tickets)) d in
      construct validate_GapDetectionResult d
  | _ => ret (AsIs result)
  end.

Definition ticket_block (t : pydict) : result string :=
  description <-? py_slice 200 (get t "description" (PStr "")) ;;
  ok ("Ticket: " ++ py_str (get t "subject" (PStr "No subject")) ++ nl
        ++ "Description: " ++ py_str description).

Definition feedback_line (f : pydict) : string :=
  "- " ++ py_str (get f "feedback" (PDict f)).

(** The shaping half of [detect]: everything up to the [ainvoke]. *)
Definition detect_texts (search_queries support_tickets user_feedback
  : option (list pydict)) (existing_content : option (list pyval))
  : result (string * string * string * string) :=
  let queries_text :=
    if truthy search_queries
    then String.concat nl (map query_line (firstn 50 (items search_queries)))
    else "" in
  tickets_text <-?
    (if truthy support_tickets
     then blocks <-? comprehension ticket_block (firstn 30 (items support_tickets)) ;;
          ok (String.concat (nl ++ nl) blocks)
     else ok "") ;;
  let feedback_text :=
    if truthy user_feedback
    then String.concat nl (map feedback_line (firstn 20 (items user_feedback)))
    else "" in
  content <-? join_titles 20 existing_content "No existing content" ;;
  ok (or_else queries_text "No search data available",
      or_else tickets_text "No ticket data available",
      or_else feedback_text "No feedback data available",
      content).

(** The human message [detect] sends: the template filled with the shaped
    texts. *)
Definition detect_prompt (search_queries support_tickets user_feedback
  : option (list pydict)) (existing_content : option (list pyval))
  : result string :=
  texts <-? detect_texts search_queries support_tickets user_feedback
              existing_content ;;
  let '(queries, tickets, feedback, content) := texts in
  ok (gap_human_message queries tickets feedback content).

Definition detect (search_queries support_tickets user_feedback
  : option (list pydict)) (existing_content : option (list pyval))
  : M (returned GapDetectionResult.t) :=
  texts <- lift (detect_texts search_queries support_tickets user_feedback
                   existing_content) ;;
  let '(queries, tickets, feedback, content) := texts in
  result <- ainvoke (Call GapChain (gap_inputs queries tickets feedback content)) ;;
  match result with
  | PDict d =>
      let d := dict_set "total_queries_analyzed" (PInt (len_or_0 search_queries)) d in
      let d := dict_set "total_tickets_analyzed" (PInt (len_or_0 support_tickets)) d in
      construct validate_GapDetectionResult d
  | _ => ret (AsIs result)
  end.

(** ** faq_generator.py *)

Definition faq_inputs (tickets queries documentation : string)
  : list (string * pyval) :=
  [ ("tickets", PStr tickets);
    ("queries", PStr queries);
    ("documentation", PStr documentation);
    ("format_instructions", PStr (get_format_instructions FAQChain)) ].

(** One ticket of the FAQ prompt, its description and resolution cut to
    [n] characters. *)
Definition faq_ticket_block (n : nat) (t : pydict) : result string :=
  description <-? py_slice n (get t "description" (PStr "")) ;;
  resolution <-? py_slice n (get t "resolution" (PStr "Not provided")) ;;
  ok ("Subject: " ++ py_str (get t "subject" (PStr "No subject")) ++ nl
        ++ "Question: " ++ py_str description ++ nl
        ++ "Resolution: " ++ py_str resolution).

(** One documentation record, its content cut to [n] characters. *)
Definition doc_block (n : nat) (d : pydict) : result string :=
  content <-? py_slice n (get d "content" (PStr "")) ;;
  ok ("Title: " ++ py_str (get d "title" (PStr "Untitled")) ++ nl
        ++ "Content: " ++ py_str content).

Definition generate_from_tickets (tickets : list pydict)
  (existing_docs : option (list pyval)) : M (returned FAQGenerationResult.t) :=
  blocks <- lift (comprehension (faq_ticket_block 300) (firstn 40 tickets)) ;;
  let tickets_text := String.concat (nl ++ nl) blocks in
  docs <- lift (join_titles 10 existing_docs "No existing documentation") ;;
  result <- ainvoke (Call FAQChain
              (faq_inputs (or_else tickets_text "No ticket data available")
                 "No query data provided"
                 docs)) ;;
  match result with
  | PDict d =>
      let d := dict_set "total_sources_analyzed" (PInt (len tickets)) d in
      construct validate_FAQGenerationResult d
  | _ => ret (AsIs result)
  end.

Definition asked_line (q : pydict) : string :=
  "- " ++ dquote ++ py_str (get q "query" (PDict q)) ++ dquote
    ++ " (asked " ++ py_str (get q "count" (PInt 1)) ++ " times)".

Definition generate_from_queries (queries : list pydict)
  (documentation : option (list pydict)) : M (returned FAQGenerationResult.t) :=
  let queries_text := String.concat nl (map asked_line (firstn 50 queries)) in
  docs_text <- lift
    (if truthy documentation
     then blocks <-? comprehension (doc_block 500) (firstn 10 (items documentation)) ;;
          ok (String.concat (nl ++ nl) blocks)
     else ok "") ;;
  result <- ainvoke (Call FAQChain
              (faq_inputs "No ticket data provided"
                 (or_else queries_text "No query data available")
                 (or_else docs_text "No existing documentation"))) ;;
  match result with
  | PDict d =>
      let d := dict_set "total_sources_analyzed" (PInt (len queries)) d in
      construct validate_FAQGenerationResult d
  | _ => ret (AsIs result)
  end.

(** The shaping half of [generate]. *)
Definition generate_texts (tickets queries documentation : option (list pydict))
  : result (string * string * string) :=
  tickets_text <-?
    (if truthy tickets
     then blocks <-? comprehension (faq_ticket_block 250) (firstn 30 (items tickets)) ;;
          ok (String.concat (nl ++ nl) blocks)
     else ok "") ;;
  let queries_text :=
    if truthy queries
    then String.concat nl (map query_line (firstn 40 (items queries)))
    else "" in
  docs_text <-?
    (if truthy documentation
     then blocks <-? comprehension (doc_block 400) (firstn 10 (items documentation)) ;;
          ok (String.concat (nl ++ nl) blocks)
     else ok "") ;;
  ok (or_else tickets_text "No ticket data available",
      or_else queries_text "No query data available",
      or_else docs_text "No existing documentation").

Definition generate (tickets queries documentation : option (list pydict))
  : M (returned FAQGenerationResult.t) :=
  texts <- lift (generate_texts tickets queries documentation) ;;
  let '(tickets_text, queries_text, docs_text) := texts in
  result <- ainvoke (Call FAQChain (faq_inputs tickets_text queries_text docs_text)) ;;
  match result with
  | PDict d =>
      let d := dict_set "total_sources_analyzed"
                 (PInt (len_or_0 tickets + len_or_0 queries)) d in
      construct validate_FAQGenerationResult d
  | _ => ret (AsIs result)
  end.

Definition improve_faq (question current_answer : string)
  (feedback : option (list pyval)) : M (returned GeneratedFAQ.t) :=
  feedback_text <- lift
    (if truthy feedback
     then py_join nl (items feedback)
     else ok "No specific feedback") ;;
  result <- ainvoke (Call ImproveChain
              [ ("question", PStr question);
                ("current_answer", PStr current_answer);
                ("feedback", PStr feedback_text);
                ("format_instructions", PStr (get_format_instructions ImproveChain)) ]) ;;
  match result with
  | PDict d => construct validate_GeneratedFAQ_dict d
  | _ => ret (AsIs result)
  end.

(** ** content_analyzer.py *)

Definition analyze_quality (content : pydict) : M (returned ContentQuality.t) :=
  body <- lift (py_slice 3000 (get content "content" (PStr ""))) ;;
  result <- ainvoke (Call QualityChain
              [ ("title", get content "title" (PStr "Untitled"));
                ("content", body);
                ("last_updated", get content "last_updated" (PStr "Unknown"));
                ("category", get content "category" (PStr "Unknown"));
                ("format_instructions", PStr (get_format_instructions QualityChain)) ]) ;;
  match result with
  | PDict d =>
      let d := dict_set "content_id" (get content "id" (PStr "")) d in
      let d := dict_set "title" (get content "title" (PStr "Untitled")) d in
      construct validate_ContentQuality d
  | _ => ret (AsIs result)
  end.

Definition content_summary_line (c : pydict) : result string :=
  body <-? py_slice 200 (get c "content" (PStr "")) ;;
  ok ("- " ++ py_str (get c "title" (PStr "Untitled")) ++ ": "
        ++ py_str body ++ "...").

Definition analyze_coverage (content_list : list pydict)
  (expected_topics : list string) : M (returned CoverageAnalysis.t) :=
  lines <- lift (comprehension content_summary_line (firstn 30 content_list)) ;;
  let content_summary := String.concat nl lines in
  result <- ainvoke (Call CoverageChain
              [ ("existing_content", PStr content_summary);
                ("expected_topics",
                  PStr (String.concat nl (map (fun t => "- " ++ t) expected_topics)));
                ("format_instructions", PStr (get_format_instructions CoverageChain)) ]) ;;
  match result with
  | PDict d => construct validate_CoverageAnalysis d
  | _ => ret (AsIs result)
  end.

(** The call of [suggest_content], once the related titles are joined. *)
Definition suggestion_call (gap_title gap_description related : string) : call :=
  Call SuggestionChain
    [ ("gap_title", PStr gap_title);
      ("gap_description", PStr gap_description);
      ("existing_content", PStr related);
      ("format_instructions", PStr (get_format_instructions SuggestionChain)) ].

Definition suggest_content (gap_title gap_description : string)
  (existing_content : option (list pyval))
  : M (returned ContentSuggestionOutput.t) :=
  related <- lift (join_titles 10 existing_content "No related content") ;;
  result <- ainvoke (suggestion_call gap_title gap_description related) ;;
  match result with
  | PDict d => construct validate_ContentSuggestionOutput d
  | _ => ret (AsIs result)
  end.

(** ** orchestrator.py *)

Import AnalysisReport.

(** [AnalysisReport()]. *)
Definition new_report : M AnalysisReport.t :=
  id <- new_uuid ;;
  created_at <- new_timestamp ;;
  ret (AnalysisReport.init id created_at).

Definition _generate_summary (report : AnalysisReport.t)
  (gap_result : GapDetectionResult.t) : string :=
  let parts :=
    [ "Analysis completed in " ++ format_1f (duration_seconds report) ++ " seconds.";
      "Identified " ++ format_int (gaps_found report) ++ " knowledge gaps." ] in
  let parts :=
    if (faqs_generated report =? 0)%Z then parts
    else append parts ("Generated " ++ format_int (faqs_generated report) ++ " FAQs.") in
  let parts :=
    if (suggestions_created report =? 0)%Z then parts
    else append parts ("Created " ++ format_int (suggestions_created report)
                         ++ " content suggestions.") in
  let parts :=
    if PrimFloat.eqb (coverage_score report) 0%float then parts
    else append parts ("Current coverage: " ++ format_1f (coverage_score report) ++ "%.") in
  let critical_gaps :=
    filter (fun g => String.eqb (DetectedGap.priority g) "critical") (gaps report) in
  let parts :=
    match critical_gaps with
    | [] => parts
    | _ => append parts ("ATTENTION: " ++ format_int (len critical_gaps)
                           ++ " critical gaps require immediate attention.")
    end in
  String.concat " " parts.

(** Step 1: detect gaps. *)
Definition step1_detect_gaps (report : AnalysisReport.t)
  (search_queries support_tickets user_feedback : option (list pydict))
  (content_titles : list pyval)
  : M (AnalysisReport.t * GapDetectionResult.t) :=
  gap_result <- detect search_queries support_tickets user_feedback
                  (Some content_titles) ;;
  gap_result <- attr gap_result ;;
  let report := set_gaps (GapDetectionResult.gaps gap_result) report in
  let report := set_gaps_found (len (GapDetectionResult.gaps gap_result)) report in
  ret (report, gap_result).

(** Step 2: analyze coverage if topics provided. *)
Definition step2_analyze_coverage (report : AnalysisReport.t)
  (existing_content : option (list pydict))
  (expected_topics : option (list string)) : M AnalysisReport.t :=
  if truthy expected_topics && truthy existing_content
  then
    coverage <- analyze_coverage (items existing_content) (items expected_topics) ;;
    coverage <- attr coverage ;;
    ret (set_coverage_score (CoverageAnalysis.coverage_percentage coverage) report)
  else ret report.

(** Step 3: generate FAQs from tickets. *)
Definition step3_generate_faqs (report : AnalysisReport.t)
  (support_tickets search_queries existing_content : option (list pydict))
  (generate_faqs : bool) : M AnalysisReport.t :=
  if generate_faqs && truthy support_tickets
  then
    faq_result <- generate support_tickets search_queries existing_content ;;
    faq_result <- attr faq_result ;;
    let report := set_faqs (FAQGenerationResult.faqs faq_result) report in
    ret (set_faqs_generated (len (FAQGenerationResult.faqs faq_result)) report)
  else ret report.

(** The body of the [for gap in ...] loop of step 4, over the gaps still to
    visit. *)
Fixpoint suggestion_loop (todo : list DetectedGap.t) (content_titles : list pyval)
  (report : AnalysisReport.t) : M AnalysisReport.t :=
  match todo with
  | [] => ret report
  | gap :: rest =>
      suggestion <- suggest_content (DetectedGap.title gap)
                      (DetectedGap.description gap)
                      (Some (firstn 10 content_titles)) ;;
      suggestion_loop rest content_titles
        (set_suggestions (append (suggestions report) suggestion) report)
  end.

(** Step 4: generate content suggestions for gaps. *)
Definition step4_suggestions (report : AnalysisReport.t)
  (gap_result : GapDetectionResult.t) (content_titles : list pyval)
  (generate_suggestions : bool) : M AnalysisReport.t :=
  if generate_suggestions
  then
    report <- suggestion_loop (firstn 5 (GapDetectionResult.gaps gap_result))
                content_titles report ;;
    ret (set_suggestions_created (len (suggestions report)) report)
  else ret report.

(** [[c.get("title", "") for c in existing_content] if existing_content
    else []]. *)
Definition titles_of (existing_content : option (list pydict)) : list pyval :=
  if truthy existing_content
  then map (fun c => get c "title" (PStr "")) (items existing_content)
  else [].

Definition run_full_analysis
  (search_queries support_tickets user_feedback existing_content
    : option (list pydict))
  (expected_topics : option (list string))
  (generate_faqs generate_suggestions : bool) : M AnalysisReport.t :=
  start_time <- now ;;
  report <- new_report ;;
  let content_titles := titles_of existing_content in
  step1 <- step1_detect_gaps report search_queries support_tickets user_feedback
             content_titles ;;
  let '(report, gap_result) := step1 in
  report <- step2_analyze_coverage report existing_content expected_topics ;;
  report <- step3_generate_faqs report support_tickets search_queries
              existing_content generate_faqs ;;
  report <- step4_suggestions report gap_result content_titles
              generate_suggestions ;;
  let report := set_summary (_generate_summary report gap_result) report in
  end_time <- now ;;
  ret (set_duration_seconds (PrimFloat.sub end_time start_time) report).

Definition detect_gaps_only (search_queries support_tickets : option (list pydict))
  (existing_content : option (list pyval)) : M (returned GapDetectionResult.t) :=
  detect search_queries support_tickets None existing_content.

Definition generate_faqs_only (support_tickets search_queries : option (list pydict))
  : M (returned FAQGenerationResult.t) :=
  generate support_tickets search_queries None.

Section BulkQuality.

(** The builtin [sum()] over floats (its rounding differs between Python
    versions). *)
Variable py_sum : list float -> float.

(** The [for content in content_list[:20]] loop, over the items still to
    visit. *)
Fixpoint quality_loop (todo : list pydict) (result : ContentAnalysisResult.t)
  : M ContentAnalysisResult.t :=
  match todo with
  | [] => ret result
  | content :: rest =>
      quality <- analyze_quality content ;;
      quality_loop rest (ContentAnalysisResult.append_assessment quality result)
  end.

(** [q.overall_score] for one assessment. *)
Definition overall_score_of (q : returned ContentQuality.t) : result float :=
  match q with
  | Model r => ok (ContentQuality.overall_score r)
  | AsIs _ => fail AttributeError
  end.

Definition analyze_content_quality (content_list : list pydict)
  : M ContentAnalysisResult.t :=
  result <- quality_loop (firstn 20 content_list) ContentAnalysisResult.init ;;
  match ContentAnalysisResult.quality_assessments result with
  | [] => ret result
  | assessments =>
      scores <- lift (comprehension overall_score_of assessments) ;;
      let avg_score :=
        PrimFloat.div (py_sum scores)
          (PrimFloat.of_uint63 (Uint63.of_Z (len assessments))) in
      ret (ContentAnalysisResult.set_summary
             ("Analyzed " ++ format_int (len assessments)
                ++ " pieces of content. Average quality score: "
                ++ format_2f avg_score)
             result)
  end.

End BulkQuality.

End Agents.

(** ** Vocabulary of the statements *)

Section Vocabulary.

Context {R : Runtime}.

(** The score a validated gap carries is the validated [impact_score] of
    the response item it was built from. *)
Definition gap_score_from (v : pyval) (g : DetectedGap.t) : Prop :=
  exists d, v = PDict d /\
    required validate_float "impact_score" d = Some (DetectedGap.impact_score g).

Definition faq_score_from (v : pyval) (f : GeneratedFAQ.t) : Prop :=
  exists d, v = PDict d /\
    required validate_float "confidence_score" d
      = Some (GeneratedFAQ.confidence_score f).

(** What [suggest_content] returns when the chain answered [v]. *)
Definition suggestion_from (v : pyval)
  (s : returned ContentSuggestionOutput.t) : Prop :=
  match v with
  | PDict d => exists r, validate_ContentSuggestionOutput d = Some r /\ s = Model r
  | _ => s = AsIs v
  end.

(** The text of related titles every suggestion call of a run carries. *)
Definition related_text (content_titles : list pyval) : string :=
  match join_titles 10 (Some (firstn 10 content_titles)) "No related content" with
  | inr text => text
  | inl _ => ""
  end.

(** The suggestion call for one gap. *)
Definition gap_suggestion_call (content_titles : list pyval)
  (gap : DetectedGap.t) : call :=
  suggestion_call (DetectedGap.title gap) (DetectedGap.description gap)
    (related_text content_titles).

(** The chains called in a stretch of the log, in order. *)
Definition chains_of (entries : list (call * result pyval)) : list chain_id :=
  map (fun entry => chain (fst entry)) entries.

(** The guards of the two conditional stages. *)
Definition coverage_stage_runs (existing_content : option (list pydict))
  (expected_topics : option (list string)) : bool :=
  truthy expected_topics && truthy existing_content.

Definition faq_stage_runs (generate_faqs : bool)
  (support_tickets : option (list pydict)) : bool :=
  generate_faqs && truthy support_tickets.

(** An optional list cut to its first [n] items. *)
Definition cap {A : Type} (n : nat) (xs : option (list A)) : option (list A) :=
  option_map (firstn n) xs.

Definition is_str (v : pyval) : bool :=
  match v with
  | PStr _ => true
  | _ => false
  end.

Definition is_dict (v : pyval) : bool :=
  match v with
  | PDict _ => true
  | _ => false
  end.

(** The values on which [v[:n]] raises TypeError in every Python 3: None
    and the numbers. *)
Definition unsliceable (v : pyval) : bool :=
  match v with
  | PNone | PBool _ | PInt _ | PFloat _ => true
  | _ => false
  end.

(** The gaps the summary counts as critical. *)
Definition critical_gaps (report : AnalysisReport.t) : list DetectedGap.t :=
  filter (fun g => String.eqb (DetectedGap.priority g) "critical")
    (AnalysisReport.gaps report).

(** The world in which the detection of a run starts: after the first clock
    reading and the creation of the report. *)
Definition detection_start (w : World) : World :=
  snd (new_report (snd (now w))).

(** The identity of a quality assessment is the one of the content
    record. *)
Definition assessment_of (content : pydict) (q : ContentQuality.t) : Prop :=
  PStr (ContentQuality.content_id q) = get content "id" (PStr "") /\
  PStr (ContentQuality.title q) = get content "title" (PStr "Untitled").

(** *** Results that differ in one score *)









(** *** What the methods write into the response before building the model *)





End Vocabulary.

(** ** A stub runtime *)

(** The stub's [str()]: exact on str, int, bool and None; a float or a
    container is rendered by a fixed tag. *)
Definition stub_str (v : pyval) : string :=
  match v with
  | PStr s => s
  | PInt z => format_int z
  | PBool true => "True"
  | PBool false => "False"
  | PNone => "None"
  | PFloat _ => "<float>"
  | PList _ => "<list>"
  | PDict _ => "<dict>"
  end.

(** A deterministic completion service: the response to a call is
    [respond c]; the state counts the events so far and serves as clock
    (one second per event). Pydantic converts nothing. *)
Definition stub (respond : call -> result pyval) : Runtime := {|
  Svc := nat;
  chain_ainvoke := fun c n => (respond c, S n);
  time_time := fun n => (PrimFloat.of_uint63 (Uint63.of_Z (Z.of_nat n)), S n);
  uuid4 := fun n => ("00000000-0000-4000-8000-000000000000", S n);
  utcnow := fun n => (Z.of_nat n, S n);
  py_str := stub_str;
  get_format_instructions := fun _ => "Return a JSON object.";
  coerce_int := fun _ => None;
  coerce_float := fun _ => None
|}.

Definition fresh {R : Runtime} (s : Svc) : World := {| svc := s; log := [] |}.

(** What a run gave, for statements at concrete inputs. *)
Definition model_of {R : Runtime} {T : Type}
  (x : result (returned T) * World) : option T :=
  match fst x with
  | inr (Model r) => Some r
  | _ => None
  end.

Definition report_of {R : Runtime} (x : result AnalysisReport.t * World)
  : AnalysisReport.t :=
  match fst x with
  | inr report => report
  | inl _ => AnalysisReport.init "" 0%Z
  end.

(** ** Sample inputs and stub responses *)

Definition query (text : string) : pydict := [("query", PStr text)].

(** The three search queries of the end-to-end scenario. *)
Definition three_queries : list pydict :=
  [query "reset password"; query "export data"; query "export data"].

Definition sixty_queries : list pydict := repeat (query "export data") 60.

Definition one_ticket : list pydict :=
  [[("subject", PStr "Cannot export"); ("description", PStr "Export fails")]].

Definition billing_faq : pydict :=
  [("id", PStr "c-1"); ("title", PStr "Billing FAQ"); ("content", PStr "How billing works")].

Definition two_topics : list string := ["billing"; "security"].

(** A gap as the service states it, with an impact score of 1.5. *)
Definition gap_item (title priority : string) : pyval :=
  PDict [ ("title", PStr title);
          ("description", PStr "The export workflow has no article.");
          ("topic", PStr "export");
          ("priority", PStr priority);
          ("evidence", PList [PStr "2 searches"]);
          ("search_queries", PList [PStr "export data"]);
          ("impact_score", PFloat 1.5);
          ("suggested_content", PStr "A guide to exporting data.") ].

(** A detection response that states counts of its own: 99 queries and 7
    tickets. *)
Definition gap_response (gaps : list pyval) : pyval :=
  PDict [ ("gaps", PList gaps);
          ("analysis_summary", PStr "One gap.");
          ("total_queries_analyzed", PInt 99);
          ("total_tickets_analyzed", PInt 7) ].

Definition coverage_response (total covered : Z) (percentage : float) : pyval :=
  PDict [ ("total_topics", PInt total);
          ("covered_topics", PInt covered);
          ("coverage_percentage", PFloat percentage);
          ("well_covered", PList [PStr "billing"]);
          ("partially_covered", PList []);
          ("not_covered", PList [PStr "security"]);
          ("recommendations", PList []) ].

(** A FAQ response with a confidence of 1.5 and a stated source count of
    500. *)
Definition faq_response : pyval :=
  PDict [ ("faqs",
           PList [ PDict [ ("question", PStr "How do I export data?");
                           ("answer", PStr "Use the export page.");
                           ("category", PStr "export");
                           ("confidence_score", PFloat 1.5);
                           ("source_summary", PStr "1 ticket");
                           ("related_questions", PList []);
                           ("tags", PList []) ] ]);
          ("total_sources_analyzed", PInt 500) ].

(** A quality response that echoes an id and a title of its own and scores
    1.5 overall. *)
Definition quality_response : pyval :=
  PDict [ ("content_id", PStr "echoed-id");
          ("title", PStr "Echoed title");
          ("completeness_score", PFloat 0.5);
          ("clarity_score", PFloat 0.5);
          ("accuracy_score", PFloat 0.5);
          ("freshness_score", PFloat 0.5);
          ("overall_score", PFloat 1.5);
          ("issues", PList []);
          ("improvements", PList []) ].

Definition suggestion_response : pyval :=
  PDict [ ("title", PStr "Exporting data");
          ("summary", PStr "How to export.");
          ("outline", PList [PStr "Steps"]);
          ("priority", PStr "high");
          ("target_audience", PStr "admins");
          ("estimated_effort", PStr "low") ].

(** The stub of the end-to-end scenario: always one gap, of priority
    "high", and a coverage of 50.0. *)
Definition scenario (c : call) : result pyval :=
  match chain c with
  | GapChain => ok (gap_response [gap_item "Export workflow undocumented" "high"])
  | CoverageChain => ok (coverage_response 2 1 50)
  | FAQChain => ok faq_response
  | ImproveChain => fail (ChainError "not stubbed")
  | QualityChain => ok quality_response
  | SuggestionChain => ok suggestion_response
  end.

(** Seven gaps, low priority first: more than the five the suggestion
    stage visits. *)
Definition seven_gaps : list pyval :=
  [ gap_item "g1" "low"; gap_item "g2" "critical"; gap_item "g3" "low";
    gap_item "g4" "high"; gap_item "g5" "low"; gap_item "g6" "critical";
    gap_item "g7" "critical" ].

Definition many_gaps (c : call) : result pyval :=
  match chain c with
  | GapChain => ok (gap_response seven_gaps)
  | _ => scenario c
  end.

(** A service whose coverage answer is fixed by the three numbers. *)
Definition coverage_stub (total covered : Z) (percentage : float)
  (c : call) : result pyval :=
  ok (coverage_response total covered percentage).

Definition scenario_runtime : Runtime := stub scenario.

(** The service that states 2 topics, 1 covered and 10.0 percent. *)
Definition coverage_10_runtime : Runtime := stub (coverage_stub 2 1 10).

(** The end-to-end scenario: 3 queries, 0 tickets, two expected topics, one
    content item, no FAQs, suggestions. *)
Definition scenario_run : result AnalysisReport.t * World :=
  run_full_analysis (R := stub scenario)
    (Some three_queries) (Some []) None (Some [billing_faq]) (Some two_topics)
    false true (fresh (R := stub scenario) 0%nat).

(** The same inputs against the service that finds seven gaps. *)
Definition many_gaps_run : result AnalysisReport.t * World :=
  run_full_analysis (R := stub many_gaps)
    (Some three_queries) (Some []) None (Some [billing_faq]) (Some two_topics)
    false true (fresh (R := stub many_gaps) 0%nat).

(** ** More sample inputs and stubs *)

(** A ticket whose description is null. *)
Definition ticket_without_text : pydict :=
  [("subject", PStr "Login"); ("description", PNone)].

(** A content record whose title is null. *)
Definition untitled_record : pydict :=
  [("id", PStr "c-2"); ("title", PNone); ("content", PStr "Text")].

Definition security_guide : pydict :=
  [("id", PStr "c-3"); ("title", PStr "Security guide"); ("content", PStr "Passwords")].

(** A service that answers every call with the same value. *)
Definition constant_runtime (answer : result pyval) : Runtime :=
  stub (fun _ => answer).

(** An object with nothing but the summary. *)
Definition summary_only_runtime : Runtime :=
  constant_runtime (ok (PDict [("analysis_summary", PStr "Nothing found.")])).

(** An object with gaps and no summary. *)
Definition no_summary_runtime : Runtime :=
  constant_runtime (ok (PDict [("gaps", PList [])])).

(** A JSON list instead of an object. *)
Definition list_runtime : Runtime := constant_runtime (ok (PList [])).

(** A service that is down. *)
Definition failing_runtime : Runtime :=
  constant_runtime (fail (ChainError "rate limit")).

(** A service that answers the improve chain with a FAQ of its own. *)
Definition improve_runtime : Runtime :=
  constant_runtime
    (ok (PDict [ ("question", PStr "How can I export my data?");
                 ("answer", PStr "Open Settings, then Export.");
                 ("category", PStr "export");
                 ("confidence_score", PFloat 0.5);
                 ("source_summary", PStr "feedback");
                 ("related_questions", PList []);
                 ("tags", PList [PStr "export"]) ])).

(** [sum()] as a left fold from 0.0. *)
Definition fold_sum (xs : list float) : float :=
  fold_left PrimFloat.add xs 0%float.

(** The items of a response object. *)
Definition response_dict (v : pyval) : pydict :=
  match v with
  | PDict d => d
  | _ => []
  end.

(** * Properties *)

Section Properties.

Context {R : Runtime}.

(** ** The monad *)

Lemma bind_ok {A B : Type} (m : M A) (k : A -> M B) w b w' :
  bind m k w = (inr b, w') ->
  exists a w1, m w = (inr a, w1) /\ k a w1 = (inr b, w').
Proof.
  unfold bind. destruct (m w) as [[e | a] w1]; intros H.
  - discriminate.
  - exists a, w1. split; [reflexivity | exact H].
Qed.

Lemma ret_ok {A : Type} (a b : A) w w' :
  ret a w = (inr b, w') -> b = a /\ w' = w.
Proof. unfold ret, ok. intros H. inversion H. split; reflexivity. Qed.

Lemma lift_ok {A : Type} (r : result A) w a w' :
  lift r w = (inr a, w') -> r = inr a /\ w' = w.
Proof. unfold lift. intros H. inversion H. split; reflexivity. Qed.

Lemma attr_ok {T : Type} (x : returned T) w r w' :
  attr x w = (inr r, w') -> x = Model r /\ w' = w.
Proof.
  destruct x as [r0 | v]; simpl; intros H.
  - apply ret_ok in H. destruct H as [-> ->]. split; reflexivity.
  - discriminate.
Qed.

Lemma construct_ok {T : Type} (validate : pydict -> option T) d w x w' :
  construct validate d w = (inr x, w') ->
  exists r, validate d = Some r /\ x = Model r /\ w' = w.
Proof.
  unfold construct. destruct (validate d) as [r |]; intros H.
  - apply ret_ok in H. destruct H as [-> ->]. exists r. repeat split.
  - discriminate.
Qed.

Lemma ainvoke_ok c w v w' :
  ainvoke c w = (inr v, w') ->
  chain_ainvoke c (svc w) = (inr v, svc w') /\
  log w' = append (log w) (c, inr v).
Proof.
  unfold ainvoke. destruct (chain_ainvoke c (svc w)) as [o s]. intros H.
  inversion H; subst; simpl. split; reflexivity.
Qed.

(** What an agent method does with the parsed response: the shared tail
    [if isinstance(result, dict): ... return Model(...)  /  return result]. *)
Lemma parsed_ok {T : Type} (validate : pydict -> option T)
  (overwrite : pydict -> pydict) (result : pyval) w (r : T) w' :
  match result with
  | PDict d => construct validate (overwrite d)
  | _ => ret (AsIs result)
  end w = (inr (Model r), w') ->
  exists d, result = PDict d /\ validate (overwrite d) = Some r /\ w' = w.
Proof.
  destruct result; intros H;
    try (apply ret_ok in H; destruct H as [H _]; discriminate).
  apply construct_ok in H. destruct H as (r0 & Hv & Hm & ->).
  inversion Hm; subst. exists d. repeat split. exact Hv.
Qed.

Tactic Notation "inv_bind" hyp(H) "as" ident(a) ident(w) ident(H1) :=
  apply bind_ok in H; destruct H as (a & w & H1 & H).

Tactic Notation "inv_lift" hyp(H) "as" ident(E) :=
  apply lift_ok in H; destruct H as [E ->].

(** ** Dicts *)

Lemma dict_get_set_same k v d : dict_get k (dict_set k v d) = Some v.
Proof.
  induction d as [| [k' v'] rest IH]; simpl.
  - rewrite String.eqb_refl. reflexivity.
  - destruct (String.eqb k k') eqn:E; simpl.
    + rewrite String.eqb_refl. reflexivity.
    + rewrite E. exact IH.
Qed.

Lemma dict_get_set_other k k' v d :
  k <> k' -> dict_get k (dict_set k' v d) = dict_get k d.
Proof.
  intros Hne. induction d as [| [k0 v0] rest IH]; simpl.
  - destruct (String.eqb_spec k k'); [contradiction | reflexivity].
  - destruct (String.eqb_spec k' k0) as [-> | Hk]; simpl.
    + destruct (String.eqb_spec k k0); [contradiction | reflexivity].
    + destruct (String.eqb_spec k k0); [reflexivity | exact IH].
Qed.

(** ** Validation *)

Lemma validate_str_inv v s : validate_str v = Some s -> v = PStr s.
Proof. destruct v; simpl; intros H; inversion H; reflexivity. Qed.

Lemma validate_float_float x : validate_float (PFloat x) = Some x.
Proof. reflexivity. Qed.

Lemma validate_int_int z : validate_int (PInt z) = Some z.
Proof. reflexivity. Qed.

Lemma validate_items_Forall2 {A : Type} (f : pyval -> option A) vs xs :
  validate_items f vs = Some xs -> Forall2 (fun v x => f v = Some x) vs xs.
Proof.
  revert xs. induction vs as [| v rest IH]; simpl; intros xs H.
  - inversion H. constructor.
  - destruct (f v) as [a |] eqn:Ea; [| discriminate].
    destruct (validate_items f rest) as [r |]; [| discriminate].
    inversion H; subst. constructor; [exact Ea | apply IH; reflexivity].
Qed.

Ltac split_fields H :=
  repeat match type of H with
    | match ?x with Some _ => _ | None => _ end = Some _ =>
        let E := fresh "E" in destruct x eqn:E; [| discriminate H]
    end;
  inversion H; subst; clear H; simpl.

Lemma validate_GapDetectionResult_fields d r :
  validate_GapDetectionResult d = Some r ->
  defaulted (validate_list validate_DetectedGap) "gaps" [] d
    = Some (GapDetectionResult.gaps r) /\
  defaulted validate_int "total_queries_analyzed" 0%Z d
    = Some (GapDetectionResult.total_queries_analyzed r) /\
  defaulted validate_int "total_tickets_analyzed" 0%Z d
    = Some (GapDetectionResult.total_tickets_analyzed r) /\
  defaulted validate_float "coverage_score" 0%float d
    = Some (GapDetectionResult.coverage_score r).
Proof.
  unfold validate_GapDetectionResult. intros H. split_fields H.
  repeat split; assumption.
Qed.

Lemma validate_DetectedGap_fields v g :
  validate_DetectedGap v = Some g ->
  exists d, v = PDict d /\
    required validate_float "impact_score" d = Some (DetectedGap.impact_score g).
Proof.
  destruct v; simpl; try discriminate. intros H. split_fields H.
  exists d. split; [reflexivity | assumption].
Qed.

Lemma validate_GeneratedFAQ_fields v f :
  validate_GeneratedFAQ v = Some f ->
  exists d, v = PDict d /\
    required validate_float "confidence_score" d
      = Some (GeneratedFAQ.confidence_score f).
Proof.
  destruct v; simpl; try discriminate. unfold validate_GeneratedFAQ_dict.
  intros H. split_fields H. exists d. split; [reflexivity | assumption].
Qed.

Lemma validate_FAQGenerationResult_fields d r :
  validate_FAQGenerationResult d = Some r ->
  defaulted (validate_list validate_GeneratedFAQ) "faqs" [] d
    = Some (FAQGenerationResult.faqs r) /\
  defaulted validate_int "total_sources_analyzed" 0%Z d
    = Some (FAQGenerationResult.total_sources_analyzed r).
Proof.
  unfold validate_FAQGenerationResult. intros H. split_fields H.
  repeat split; assumption.
Qed.

Lemma validate_ContentQuality_fields d q :
  validate_ContentQuality d = Some q ->
  required validate_str "content_id" d = Some (ContentQuality.content_id q) /\
  required validate_str "title" d = Some (ContentQuality.title q) /\
  required validate_float "completeness_score" d
    = Some (ContentQuality.completeness_score q) /\
  required validate_float "clarity_score" d
    = Some (ContentQuality.clarity_score q) /\
  required validate_float "accuracy_score" d
    = Some (ContentQuality.accuracy_score q) /\
  required validate_float "freshness_score" d
    = Some (ContentQuality.freshness_score q) /\
  required validate_float "overall_score" d
    = Some (ContentQuality.overall_score q).
Proof.
  unfold validate_ContentQuality. intros H. split_fields H.
  repeat split; assumption.
Qed.

Lemma validate_CoverageAnalysis_fields d c :
  validate_CoverageAnalysis d = Some c ->
  required validate_int "total_topics" d = Some (CoverageAnalysis.total_topics c) /\
  required validate_int "covered_topics" d
    = Some (CoverageAnalysis.covered_topics c) /\
  required validate_float "coverage_percentage" d
    = Some (CoverageAnalysis.coverage_percentage c).
Proof.
  unfold validate_CoverageAnalysis. intros H. split_fields H.
  repeat split; assumption.
Qed.

(** ** The agents, one call each *)

Lemma detect_inv sq st uf ec w r w' :
  detect sq st uf ec w = (inr (Model r), w') ->
  exists q t f c d,
    detect_texts sq st uf ec = inr (q, t, f, c) /\
    ainvoke (Call GapChain (gap_inputs q t f c)) w = (inr (PDict d), w') /\
    validate_GapDetectionResult
      (dict_set "total_tickets_analyzed" (PInt (len_or_0 st))
         (dict_set "total_queries_analyzed" (PInt (len_or_0 sq)) d)) = Some r.
Proof.
  unfold detect. intros H. inv_bind H as texts w1 Htexts. inv_lift Htexts as E.
  destruct texts as [[[q t] f] c]. inv_bind H as v w2 Hcall.
  apply (parsed_ok validate_GapDetectionResult
           (fun d => dict_set "total_tickets_analyzed" (PInt (len_or_0 st))
                       (dict_set "total_queries_analyzed" (PInt (len_or_0 sq)) d)))
    in H.
  destruct H as (d & -> & Hv & ->).
  exists q, t, f, c, d. repeat split; assumption.
Qed.

Lemma generate_inv tickets queries documentation w r w' :
  generate tickets queries documentation w = (inr (Model r), w') ->
  exists t q docs d,
    generate_texts tickets queries documentation = inr (t, q, docs) /\
    ainvoke (Call FAQChain (faq_inputs t q docs)) w = (inr (PDict d), w') /\
    validate_FAQGenerationResult
      (dict_set "total_sources_analyzed"
         (PInt (len_or_0 tickets + len_or_0 queries)) d) = Some r.
Proof.
  unfold generate. intros H. inv_bind H as texts w1 Htexts. inv_lift Htexts as E.
  destruct texts as [[t q] docs]. inv_bind H as v w2 Hcall.
  apply (parsed_ok validate_FAQGenerationResult
           (fun d => dict_set "total_sources_analyzed"
                       (PInt (len_or_0 tickets + len_or_0 queries)) d)) in H.
  destruct H as (d & -> & Hv & ->).
  exists t, q, docs, d. repeat split; assumption.
Qed.

Lemma analyze_quality_inv content w q w' :
  analyze_quality content w = (inr (Model q), w') ->
  exists c d,
    chain c = QualityChain /\
    ainvoke c w = (inr (PDict d), w') /\
    validate_ContentQuality
      (dict_set "title" (get content "title" (PStr "Untitled"))
         (dict_set "content_id" (get content "id" (PStr "")) d)) = Some q.
Proof.
  unfold analyze_quality. intros H. inv_bind H as body w1 Hbody.
  inv_lift Hbody as E. inv_bind H as v w2 Hcall.
  apply (parsed_ok validate_ContentQuality
           (fun d => dict_set "title" (get content "title" (PStr "Untitled"))
                       (dict_set "content_id" (get content "id" (PStr "")) d)))
    in H.
  destruct H as (d & -> & Hv & ->).
  eexists; exists d. split; [| split; [exact Hcall | exact Hv]]. reflexivity.
Qed.

Lemma analyze_coverage_inv content_list expected_topics w r w' :
  analyze_coverage content_list expected_topics w = (inr (Model r), w') ->
  exists c d,
    chain c = CoverageChain /\
    ainvoke c w = (inr (PDict d), w') /\
    validate_CoverageAnalysis d = Some r.
Proof.
  unfold analyze_coverage. intros H. inv_bind H as lines w1 Hlines.
  inv_lift Hlines as E. inv_bind H as v w2 Hcall.
  apply (parsed_ok validate_CoverageAnalysis (fun d => d)) in H.
  destruct H as (d & -> & Hv & ->).
  eexists; exists d. split; [| split; [exact Hcall | exact Hv]]. reflexivity.
Qed.

(** What [detect] forces into the counts, for every response
    (used for C3, whose single-source siblings do less). *)
Lemma detect_counts sq st uf ec w r w' :
  detect sq st uf ec w = (inr (Model r), w') ->
  GapDetectionResult.total_queries_analyzed r = len_or_0 sq /\
  GapDetectionResult.total_tickets_analyzed r = len_or_0 st.
Proof.
  intros H. apply detect_inv in H.
  destruct H as (q & t & f & c & d & _ & _ & Hv).
  apply validate_GapDetectionResult_fields in Hv.
  destruct Hv as (_ & Hq & Ht & _). unfold defaulted in Hq, Ht.
  rewrite dict_get_set_other in Hq by discriminate.
  rewrite dict_get_set_same in Hq. rewrite dict_get_set_same in Ht.
  simpl in Hq, Ht. inversion Hq. inversion Ht. split; reflexivity.
Qed.

(** C4. Whenever [analyze_quality] returns a [ContentQuality], its
    [content_id] and [title] are the input record's [id] and [title] (with
    the defaults [""] and ["Untitled"] for a missing key), whatever the
    completion service answered: the response's own values for the two
    keys are overwritten before the model is built. *)
Theorem analyze_quality_identity_from_record content w q w' :
  analyze_quality content w = (inr (Model q), w') ->
  PStr (ContentQuality.content_id q) = get content "id" (PStr "") /\
  PStr (ContentQuality.title q) = get content "title" (PStr "Untitled").
Proof.
  intros H. apply analyze_quality_inv in H.
  destruct H as (c & d & _ & _ & Hv).
  apply validate_ContentQuality_fields in Hv.
  destruct Hv as (Hid & Htitle & _). unfold required in Hid, Htitle.
  rewrite dict_get_set_other in Hid by discriminate.
  rewrite dict_get_set_same in Hid. rewrite dict_get_set_same in Htitle.
  apply validate_str_inv in Hid. apply validate_str_inv in Htitle.
  split; symmetry; assumption.
Qed.


(** ** Scores *)

Lemma defaulted_list_items {A : Type} (f : pyval -> option A) k d xs :
  defaulted (validate_list f) k [] d = Some xs ->
  Forall2 (fun v x => f v = Some x) (response_items k d) xs.
Proof.
  unfold defaulted, response_items. destruct (dict_get k d) as [v |].
  - destruct v; simpl; try discriminate. apply validate_items_Forall2.
  - intros H. inversion H. constructor.
Qed.

Lemma response_items_set_other k k' v d :
  k <> k' -> response_items k (dict_set k' v d) = response_items k d.
Proof.
  intros Hne. unfold response_items. rewrite dict_get_set_other by exact Hne.
  reflexivity.
Qed.

(** The result an operation returns carries, in each score field, the
    (type-)validated value of the same field of the completion-service
    response. *)
Theorem scores_taken_from_response_unchecked :
  (forall x : float, validate_float (PFloat x) = Some x) /\
  (forall sq st uf ec w r w',
      detect sq st uf ec w = (inr (Model r), w') ->
      exists c d,
        ainvoke c w = (inr (PDict d), w') /\
        defaulted validate_float "coverage_score" 0%float d
          = Some (GapDetectionResult.coverage_score r) /\
        Forall2 gap_score_from (response_items "gaps" d)
          (GapDetectionResult.gaps r)) /\
  (forall tickets queries documentation w r w',
      generate tickets queries documentation w = (inr (Model r), w') ->
      exists c d,
        ainvoke c w = (inr (PDict d), w') /\
        Forall2 faq_score_from (response_items "faqs" d)
          (FAQGenerationResult.faqs r)) /\
  (forall content w q w',
      analyze_quality content w = (inr (Model q), w') ->
      exists c d,
        ainvoke c w = (inr (PDict d), w') /\
        required validate_float "completeness_score" d
          = Some (ContentQuality.completeness_score q) /\
        required validate_float "clarity_score" d
          = Some (ContentQuality.clarity_score q) /\
        required validate_float "accuracy_score" d
          = Some (ContentQuality.accuracy_score q) /\
        required validate_float "freshness_score" d
          = Some (ContentQuality.freshness_score q) /\
        required validate_float "overall_score" d
          = Some (ContentQuality.overall_score q)) /\
  (forall content_list expected_topics w r w',
      analyze_coverage content_list expected_topics w = (inr (Model r), w') ->
      exists c d,
        ainvoke c w = (inr (PDict d), w') /\
        required validate_float "coverage_percentage" d
          = Some (CoverageAnalysis.coverage_percentage r)).
Proof.
  split; [reflexivity |]. split; [| split; [| split]].
  - intros sq st uf ec w r w' H. apply detect_inv in H.
    destruct H as (q & t & f & c & d & _ & Hcall & Hv).
    apply validate_GapDetectionResult_fields in Hv.
    destruct Hv as (Hgaps & _ & _ & Hscore).
    eexists; exists d. split; [exact Hcall |]. split.
    + unfold defaulted in *.
      do 2 rewrite dict_get_set_other in Hscore by discriminate. exact Hscore.
    + apply defaulted_list_items in Hgaps.
      do 2 rewrite response_items_set_other in Hgaps by discriminate.
      eapply Forall2_impl; [| exact Hgaps].
      intros v g Hg. apply validate_DetectedGap_fields in Hg. exact Hg.
  - intros tickets queries documentation w r w' H. apply generate_inv in H.
    destruct H as (t & q & docs & d & _ & Hcall & Hv).
    apply validate_FAQGenerationResult_fields in Hv. destruct Hv as (Hfaqs & _).
    eexists; exists d. split; [exact Hcall |].
    apply defaulted_list_items in Hfaqs.
    rewrite response_items_set_other in Hfaqs by discriminate.
    eapply Forall2_impl; [| exact Hfaqs].
    intros v f Hf. apply validate_GeneratedFAQ_fields in Hf. exact Hf.
  - intros content w q w' H. apply analyze_quality_inv in H.
    destruct H as (c & d & _ & Hcall & Hv).
    apply validate_ContentQuality_fields in Hv.
    destruct Hv as (_ & _ & H1 & H2 & H3 & H4 & H5).
    exists c, d. split; [exact Hcall |]. unfold required in *.
    do 2 rewrite dict_get_set_other in H1 by discriminate.
    do 2 rewrite dict_get_set_other in H2 by discriminate.
    do 2 rewrite dict_get_set_other in H3 by discriminate.
    do 2 rewrite dict_get_set_other in H4 by discriminate.
    do 2 rewrite dict_get_set_other in H5 by discriminate.
    repeat split; assumption.
  - intros content_list expected_topics w r w' H.
    apply analyze_coverage_inv in H. destruct H as (c & d & _ & Hcall & Hv).
    apply validate_CoverageAnalysis_fields in Hv. destruct Hv as (_ & _ & Hp).
    exists c, d. split; assumption.
Qed.

(** C2, as amended. The [coverage_percentage] (and the two topic counts) of
    the [CoverageAnalysis] that [analyze_coverage] returns are the validated
    values of the same fields of the completion-service response, for every
    [total_topics], zero included; nothing is recomputed from
    [covered_topics / total_topics]. *)
Theorem coverage_percentage_is_the_response_value
  content_list expected_topics w r w' :
  analyze_coverage content_list expected_topics w = (inr (Model r), w') ->
  exists c d,
    chain c = CoverageChain /\
    ainvoke c w = (inr (PDict d), w') /\
    required validate_int "total_topics" d
      = Some (CoverageAnalysis.total_topics r) /\
    required validate_int "covered_topics" d
      = Some (CoverageAnalysis.covered_topics r) /\
    required validate_float "coverage_percentage" d
      = Some (CoverageAnalysis.coverage_percentage r).
Proof.
  intros H. apply analyze_coverage_inv in H.
  destruct H as (c & d & Hc & Hcall & Hv).
  apply validate_CoverageAnalysis_fields in Hv.
  exists c, d. split; [exact Hc |]. split; [exact Hcall | exact Hv].
Qed.

(** ** Input shaping of the gap detector *)




(** The world after [detect]: the one the single call leaves, or the
    initial one when shaping raised. *)
Lemma detect_world sq st uf ec w :
  snd (detect sq st uf ec w)
  = match detect_texts sq st uf ec with
    | inl _ => w
    | inr (q, t, f, c) => snd (ainvoke (Call GapChain (gap_inputs q t f c)) w)
    end.
Proof.
  unfold detect, bind, lift.
  destruct (detect_texts sq st uf ec) as [e | [[[q t] f] c]]; [reflexivity |].
  destruct (ainvoke (Call GapChain (gap_inputs q t f c)) w) as [[e | v] w1];
    [reflexivity |].
  destruct v; simpl; try reflexivity.
  unfold construct.
  destruct (validate_GapDetectionResult _); reflexivity.
Qed.



(** ** The orchestrator, stage by stage *)

Import AnalysisReport.

Lemma now_ok w t w' :
  now w = (inr t, w') -> time_time (svc w) = (t, svc w') /\ log w' = log w.
Proof.
  unfold now. destruct (time_time (svc w)) as [t0 s]. intros H.
  inversion H; subst; simpl. split; reflexivity.
Qed.

Lemma new_report_ok w r w' :
  new_report w = (inr r, w') ->
  (exists id created_at, r = AnalysisReport.init id created_at) /\
  log w' = log w.
Proof.
  unfold new_report, new_uuid, new_timestamp, bind, ret.
  destruct (uuid4 (svc w)) as [u s1]. simpl.
  destruct (utcnow s1) as [ts s2]. intros H. inversion H; subst; simpl.
  split; [exists u, ts |]; reflexivity.
Qed.

Lemma step1_ok r0 sq st uf titles w r1 gr w' :
  step1_detect_gaps r0 sq st uf titles w = (inr (r1, gr), w') ->
  detect sq st uf (Some titles) w = (inr (Model gr), w') /\
  r1 = set_gaps_found (len (GapDetectionResult.gaps gr))
         (set_gaps (GapDetectionResult.gaps gr) r0).
Proof.
  unfold step1_detect_gaps. intros H. inv_bind H as x w1 Hdetect.
  inv_bind H as gr0 w2 Hattr. apply attr_ok in Hattr. destruct Hattr as [-> ->].
  apply ret_ok in H. destruct H as [H ->]. inversion H; subst.
  split; [exact Hdetect | reflexivity].
Qed.

Lemma step2_ok r ec et w r' w' :
  step2_analyze_coverage r ec et w = (inr r', w') ->
  (coverage_stage_runs ec et = false /\ r' = r /\ w' = w) \/
  (coverage_stage_runs ec et = true /\
   exists coverage,
     analyze_coverage (items ec) (items et) w = (inr (Model coverage), w') /\
     r' = set_coverage_score (CoverageAnalysis.coverage_percentage coverage) r).
Proof.
  unfold step2_analyze_coverage, coverage_stage_runs.
  destruct (truthy et && truthy ec); intros H.
  - right. split; [reflexivity |]. inv_bind H as x w1 Hcov.
    inv_bind H as coverage w2 Hattr. apply attr_ok in Hattr.
    destruct Hattr as [-> ->]. apply ret_ok in H. destruct H as [-> ->].
    exists coverage. split; [exact Hcov | reflexivity].
  - left. apply ret_ok in H. destruct H as [-> ->]. repeat split.
Qed.

Lemma step3_ok r st sq ec gf w r' w' :
  step3_generate_faqs r st sq ec gf w = (inr r', w') ->
  (faq_stage_runs gf st = false /\ r' = r /\ w' = w) \/
  (faq_stage_runs gf st = true /\
   exists faq_result,
     generate st sq ec w = (inr (Model faq_result), w') /\
     r' = set_faqs_generated (len (FAQGenerationResult.faqs faq_result))
            (set_faqs (FAQGenerationResult.faqs faq_result) r)).
Proof.
  unfold step3_generate_faqs, faq_stage_runs.
  destruct (gf && truthy st); intros H.
  - right. split; [reflexivity |]. inv_bind H as x w1 Hgen.
    inv_bind H as faq_result w2 Hattr. apply attr_ok in Hattr.
    destruct Hattr as [-> ->]. apply ret_ok in H. destruct H as [-> ->].
    exists faq_result. split; [exact Hgen | reflexivity].
  - left. apply ret_ok in H. destruct H as [-> ->]. repeat split.
Qed.

Lemma suggest_content_ok gap_title gap_description ec w s w' :
  suggest_content gap_title gap_description ec w = (inr s, w') ->
  exists related v,
    join_titles 10 ec "No related content" = inr related /\
    ainvoke (suggestion_call gap_title gap_description related) w = (inr v, w') /\
    suggestion_from v s.
Proof.
  unfold suggest_content. intros H. inv_bind H as related w1 Hjoin.
  inv_lift Hjoin as E. inv_bind H as v w2 Hcall.
  exists related, v. split; [exact E |].
  destruct v; try (apply ret_ok in H; destruct H as [-> ->];
                   split; [exact Hcall | reflexivity]).
  apply construct_ok in H. destruct H as (r & Hv & -> & ->).
  split; [exact Hcall |]. exists r. split; [exact Hv | reflexivity].
Qed.

Lemma set_suggestions_nil r : set_suggestions (suggestions r ++ [])%list r = r.
Proof. rewrite app_nil_r. destruct r; reflexivity. Qed.

(** The loop of step 4: one call per gap still to visit, in order, each
    answer appended to [report.suggestions]; no other field is written. *)
Lemma suggestion_loop_ok todo titles r w r' w' :
  suggestion_loop todo titles r w = (inr r', w') ->
  exists responses news,
    List.length responses = List.length todo /\
    log w' = (log w ++ combine (map (gap_suggestion_call titles) todo)
                         (map inr responses))%list /\
    Forall2 suggestion_from responses news /\
    r' = set_suggestions (suggestions r ++ news)%list r.
Proof.
  revert r w. induction todo as [| gap rest IH]; cbn [suggestion_loop];
    intros r w H.
  - apply ret_ok in H. destruct H as [-> ->]. exists [], [].
    split; [reflexivity |].
    split; [cbn [map combine]; rewrite app_nil_r; reflexivity |].
    split; [constructor | symmetry; apply set_suggestions_nil].
  - inv_bind H as s w1 Hs. apply suggest_content_ok in Hs.
    destruct Hs as (related & v & Hjoin & Hcall & Hfrom).
    apply ainvoke_ok in Hcall. destruct Hcall as [_ Hlog].
    apply IH in H. destruct H as (responses & news & Hlen & Hlog' & Hall & ->).
    exists (v :: responses), (s :: news).
    split; [cbn [List.length]; rewrite Hlen; reflexivity |]. split; [| split].
    + rewrite Hlog', Hlog. cbn [map combine].
      unfold append, gap_suggestion_call at 2, related_text.
      rewrite Hjoin. rewrite <- app_assoc. reflexivity.
    + constructor; assumption.
    + cbn [suggestions set_suggestions]. unfold append.
      rewrite <- app_assoc. reflexivity.
Qed.

Lemma step4_ok r gr titles gs w r' w' :
  step4_suggestions r gr titles gs w = (inr r', w') ->
  (gs = false /\ r' = r /\ w' = w) \/
  (gs = true /\
   exists responses news,
     List.length responses = List.length (firstn 5 (GapDetectionResult.gaps gr)) /\
     log w' = (log w ++ combine
                 (map (gap_suggestion_call titles)
                    (firstn 5 (GapDetectionResult.gaps gr)))
                 (map inr responses))%list /\
     Forall2 suggestion_from responses news /\
     r' = set_suggestions_created (len (suggestions r ++ news)%list)
            (set_suggestions (suggestions r ++ news)%list r)).
Proof.
  unfold step4_suggestions. destruct gs; intros H.
  - right. split; [reflexivity |]. inv_bind H as r1 w1 Hloop.
    apply ret_ok in H. destruct H as [-> ->].
    apply suggestion_loop_ok in Hloop.
    destruct Hloop as (responses & news & Hlen & Hlog & Hall & ->).
    exists responses, news. repeat split; assumption.
  - left. apply ret_ok in H. destruct H as [-> ->]. repeat split.
Qed.

(** A completed run, cut into its stages. *)
Lemma run_full_analysis_inv sq st uf ec et gf gs w report w' :
  run_full_analysis sq st uf ec et gf gs w = (inr report, w') ->
  exists t0 wa r0 wb r1 gr wc r2 wd r3 we r4 wf t1,
    now w = (inr t0, wa) /\
    new_report wa = (inr r0, wb) /\
    step1_detect_gaps r0 sq st uf (titles_of ec) wb = (inr (r1, gr), wc) /\
    step2_analyze_coverage r1 ec et wc = (inr r2, wd) /\
    step3_generate_faqs r2 st sq ec gf wd = (inr r3, we) /\
    step4_suggestions r3 gr (titles_of ec) gs we = (inr r4, wf) /\
    now wf = (inr t1, w') /\
    report = set_duration_seconds (PrimFloat.sub t1 t0)
               (set_summary (_generate_summary r4 gr) r4).
Proof.
  unfold run_full_analysis. intros H.
  inv_bind H as t0 wa H0. inv_bind H as r0 wb Hr0.
  inv_bind H as step1 wc H1. destruct step1 as [r1 gr].
  inv_bind H as r2 wd H2. inv_bind H as r3 we H3. inv_bind H as r4 wf H4.
  inv_bind H as t1 wg H5. apply ret_ok in H. destruct H as [-> ->].
  exists t0, wa, r0, wb, r1, gr, wc, r2, wd, r3, we, r4, wf, t1.
  repeat split; assumption.
Qed.

(** ** The calls of a run *)

Lemma step1_log r0 sq st uf titles w r1 gr w' :
  step1_detect_gaps r0 sq st uf titles w = (inr (r1, gr), w') ->
  exists entry, chain (fst entry) = GapChain /\ log w' = (log w ++ [entry])%list.
Proof.
  intros H. apply step1_ok in H. destruct H as [H _]. apply detect_inv in H.
  destruct H as (q & t & f & c & d & _ & Hcall & _).
  apply ainvoke_ok in Hcall. destruct Hcall as [_ Hlog].
  eexists. split; [| exact Hlog]. reflexivity.
Qed.

Lemma step2_log r ec et w r' w' :
  step2_analyze_coverage r ec et w = (inr r', w') ->
  exists entries,
    log w' = (log w ++ entries)%list /\
    chains_of entries
      = if coverage_stage_runs ec et then [CoverageChain] else [].
Proof.
  intros H. apply step2_ok in H.
  destruct H as [(Hc & _ & ->) | (Hc & coverage & H & _)]; rewrite Hc.
  - exists []. split; [rewrite app_nil_r |]; reflexivity.
  - apply analyze_coverage_inv in H. destruct H as (c & d & Hchain & Hcall & _).
    apply ainvoke_ok in Hcall. destruct Hcall as [_ Hlog].
    exists [(c, inr (PDict d))]. split; [exact Hlog |].
    unfold chains_of. simpl. rewrite Hchain. reflexivity.
Qed.

Lemma step3_log r st sq ec gf w r' w' :
  step3_generate_faqs r st sq ec gf w = (inr r', w') ->
  exists entries,
    log w' = (log w ++ entries)%list /\
    chains_of entries = if faq_stage_runs gf st then [FAQChain] else [].
Proof.
  intros H. apply step3_ok in H.
  destruct H as [(Hc & _ & ->) | (Hc & faq_result & H & _)]; rewrite Hc.
  - exists []. split; [rewrite app_nil_r |]; reflexivity.
  - apply generate_inv in H. destruct H as (t & q & docs & d & _ & Hcall & _).
    apply ainvoke_ok in Hcall. destruct Hcall as [_ Hlog].
    eexists [(_, inr (PDict d))]. split; [exact Hlog | reflexivity].
Qed.

Lemma chains_of_app xs ys :
  chains_of (xs ++ ys)%list = (chains_of xs ++ chains_of ys)%list.
Proof. unfold chains_of. apply map_app. Qed.

Lemma chains_of_suggestions titles gaps (responses : list pyval) :
  forall c,
    In c (chains_of (combine (map (gap_suggestion_call titles) gaps)
                       (map inr responses))) ->
    c = SuggestionChain.
Proof.
  revert responses. induction gaps as [| g rest IH]; intros responses c.
  - cbn [map combine chains_of]. intros [].
  - destruct responses as [| v vs]; cbn [map combine chains_of].
    + intros [].
    + intros [H | H]; [symmetry; exact H | exact (IH vs c H)].
Qed.

(** The report of a completed run, field by field, and the log stretch of
    its first three stages. *)
Lemma run_full_analysis_shape sq st uf ec et gf gs w report w' :
  run_full_analysis sq st uf ec et gf gs w = (inr report, w') ->
  exists t0 wa t1 wf r4 gr w1 w2 earlier,
    now w = (inr t0, wa) /\ now wf = (inr t1, w') /\
    report = set_duration_seconds (PrimFloat.sub t1 t0)
               (set_summary (_generate_summary r4 gr) r4) /\
    duration_seconds r4 = 0%float /\
    detect sq st uf (Some (titles_of ec)) w1 = (inr (Model gr), w2) /\
    gaps r4 = GapDetectionResult.gaps gr /\
    gaps_found r4 = len (gaps r4) /\
    faqs_generated r4 = len (faqs r4) /\
    suggestions_created r4 = len (suggestions r4) /\
    (coverage_stage_runs ec et = false -> coverage_score r4 = 0%float) /\
    (faq_stage_runs gf st = false -> faqs r4 = [] /\ faqs_generated r4 = 0%Z) /\
    chains_of earlier
      = (GapChain
           :: (if coverage_stage_runs ec et then [CoverageChain] else [])
           ++ (if faq_stage_runs gf st then [FAQChain] else []))%list /\
    ((gs = false /\ log wf = (log w ++ earlier)%list /\ suggestions r4 = []) \/
     (gs = true /\
      exists responses,
        List.length responses = List.length (firstn 5 (gaps r4)) /\
        log wf = (log w ++ earlier
                    ++ combine (map (gap_suggestion_call (titles_of ec))
                                  (firstn 5 (gaps r4)))
                         (map inr responses))%list /\
        Forall2 suggestion_from responses (suggestions r4))).
Proof.
  intros H. apply run_full_analysis_inv in H.
  destruct H as (t0 & wa & r0 & wb & r1 & gr & wc & r2 & wd & r3 & we & r4
                 & wf & t1 & H0 & Hr0 & H1 & H2 & H3 & H4 & H5 & ->).
  pose proof (now_ok _ _ _ H0) as [_ La].
  pose proof (new_report_ok _ _ _ Hr0) as [(id & created & ->) Lb].
  pose proof (step1_log _ _ _ _ _ _ _ _ _ H1) as (e1 & Hc1 & Lc).
  pose proof (step2_log _ _ _ _ _ _ H2) as (e2 & Ld & Hc2).
  pose proof (step3_log _ _ _ _ _ _ _ _ H3) as (e3 & Le & Hc3).
  apply step1_ok in H1. destruct H1 as [Hdetect ->].
  exists t0, wa, t1, wf, r4, gr, wb, wc, ((e1 :: e2) ++ e3)%list.
  split; [exact H0 |]. split; [exact H5 |]. split; [reflexivity |].
  assert (Hlog : log we = (log w ++ (e1 :: e2) ++ e3)%list).
  { rewrite Le, Ld, Lc, Lb, La. rewrite <- !app_assoc. reflexivity. }
  assert (Hchains : chains_of ((e1 :: e2) ++ e3)%list
                    = (GapChain
                         :: (if coverage_stage_runs ec et then [CoverageChain] else [])
                         ++ (if faq_stage_runs gf st then [FAQChain] else []))%list).
  { rewrite chains_of_app. change (chains_of (e1 :: e2))
      with (chain (fst e1) :: chains_of e2). rewrite Hc1, Hc2, Hc3. reflexivity. }
  apply step2_ok in H2. apply step3_ok in H3. apply step4_ok in H4.
  destruct H2 as [(C2 & -> & _) | (C2 & coverage & _ & ->)];
    destruct H3 as [(C3 & -> & _) | (C3 & faq_result & _ & ->)];
    destruct H4 as [(-> & -> & ->) | (-> & responses & news & Hlen & L4 & Hall & ->)];
    cbn [duration_seconds gaps gaps_found faqs faqs_generated suggestions
           suggestions_created coverage_score AnalysisReport.init set_gaps
           set_gaps_found set_coverage_score set_faqs set_faqs_generated
           set_suggestions set_suggestions_created app] in *;
    (split; [reflexivity |]); (split; [exact Hdetect |]);
    (split; [reflexivity |]); (split; [reflexivity |]);
    (split; [reflexivity |]); (split; [reflexivity |]);
    (split; [intros Hoff; congruence || reflexivity |]);
    (split; [intros Hoff; (congruence || (split; reflexivity)) |]);
    (split; [exact Hchains |]);
    first [ left; split; [reflexivity |]; split; [exact Hlog | reflexivity]
          | right; split; [reflexivity |]; exists responses;
            split; [exact Hlen |]; split; [| exact Hall];
            rewrite L4, Hlog, <- app_assoc; reflexivity ].
Qed.

(** ** The summary *)

Lemma string_app_assoc (a b c : string) : (a ++ b) ++ c = a ++ (b ++ c).
Proof. induction a as [| ch a IH]; simpl; [| rewrite IH]; reflexivity. Qed.

Lemma string_app_nil_r (a : string) : a ++ "" = a.
Proof. induction a as [| ch a IH]; simpl; [| rewrite IH]; reflexivity. Qed.

Lemma concat_two_then (p1 p2 : string) (more : list string) :
  exists rest, String.concat " " (p1 :: p2 :: more) = p1 ++ " " ++ p2 ++ rest.
Proof.
  destruct more as [| p3 more].
  - exists "". simpl. rewrite string_app_nil_r. reflexivity.
  - exists (" " ++ String.concat " " (p3 :: more)). reflexivity.
Qed.

Lemma format_1f_zero : format_1f 0%float = "0.0".
Proof. vm_compute. reflexivity. Qed.

(** The summary opens with the duration and the gap count the report holds
    when the summary is composed. *)
Lemma _generate_summary_opening report gap_result :
  exists rest,
    _generate_summary report gap_result
    = "Analysis completed in " ++ format_1f (duration_seconds report)
        ++ " seconds. Identified " ++ format_int (gaps_found report)
        ++ " knowledge gaps." ++ rest.
Proof.
  unfold _generate_summary.
  set (p1 := "Analysis completed in " ++ format_1f (duration_seconds report)
               ++ " seconds.").
  set (p2 := "Identified " ++ format_int (gaps_found report)
               ++ " knowledge gaps.").
  assert (Hshape : forall more,
             exists rest,
               String.concat " " (p1 :: p2 :: more)
               = "Analysis completed in " ++ format_1f (duration_seconds report)
                   ++ " seconds. Identified " ++ format_int (gaps_found report)
                   ++ " knowledge gaps." ++ rest).
  { intros more. destruct (concat_two_then p1 p2 more) as [rest ->].
    exists rest. unfold p1, p2.
    rewrite !string_app_assoc. reflexivity. }
  destruct (faqs_generated report =? 0)%Z;
    destruct (suggestions_created report =? 0)%Z;
    destruct (PrimFloat.eqb (coverage_score report) 0);
    destruct (filter _ (gaps report));
    unfold append; cbn [app]; apply Hshape.
Qed.

(** ** The claims on the orchestrator *)

(** C8. The three counters of the report a completed run returns are the
    lengths of the three sequences of the same report, for all inputs,
    both flags and every behaviour of the completion service. *)
Theorem report_counts_are_lengths sq st uf ec et gf gs w report w' :
  run_full_analysis sq st uf ec et gf gs w = (inr report, w') ->
  gaps_found report = len (gaps report) /\
  faqs_generated report = len (faqs report) /\
  suggestions_created report = len (suggestions report).
Proof.
  intros H. apply run_full_analysis_shape in H.
  destruct H as (t0 & wa & t1 & wf & r4 & gr & w1 & w2 & earlier & _ & _ & ->
                 & _ & _ & _ & Hg & Hf & Hs & _).
  cbn [gaps_found gaps faqs_generated faqs suggestions_created suggestions
         set_duration_seconds set_summary].
  repeat split; assumption.
Qed.

(** C10. The summary of a completed run is composed from a report whose
    [duration_seconds] is still the initial 0.0, so it opens with
    "Analysis completed in 0.0 seconds." whatever the two clock readings
    were; the returned report's [duration_seconds] is the difference of the
    reading taken after the summary was composed and the one taken at the
    start of the run. *)
Theorem summary_is_composed_before_duration sq st uf ec et gf gs w report w' :
  run_full_analysis sq st uf ec et gf gs w = (inr report, w') ->
  exists unfinished gap_result rest t0 t1 s0 wf,
    summary report = _generate_summary unfinished gap_result /\
    duration_seconds unfinished = 0%float /\
    summary report
    = "Analysis completed in 0.0 seconds. Identified "
        ++ format_int (gaps_found report) ++ " knowledge gaps." ++ rest /\
    time_time (svc w) = (t0, s0) /\
    time_time (svc wf) = (t1, svc w') /\
    duration_seconds report = PrimFloat.sub t1 t0.
Proof.
  intros H. apply run_full_analysis_shape in H.
  destruct H as (t0 & wa & t1 & wf & r4 & gr & w1 & w2 & earlier & H0 & H5 & ->
                 & Hd & _).
  apply now_ok in H0. destruct H0 as [H0 _].
  apply now_ok in H5. destruct H5 as [H5 _].
  destruct (_generate_summary_opening r4 gr) as [rest Hrest].
  exists r4, gr, rest, t0, t1, (svc wa), wf.
  cbn [summary duration_seconds gaps_found set_duration_seconds set_summary].
  split; [reflexivity |]. split; [exact Hd |]. split.
  - rewrite Hrest, Hd, format_1f_zero. reflexivity.
  - repeat split; assumption.
Qed.

(** C7. In a completed run the coverage chain is called exactly when both
    [expected_topics] and [existing_content] are non-empty, and the FAQ
    chain exactly when [generate_faqs] is set and [support_tickets] is
    non-empty. A skipped stage is the identity on the report and on the
    world, so every field keeps the value it had; in the returned report a
    skipped coverage stage leaves [coverage_score = 0.0] and a skipped FAQ
    stage leaves [faqs = []] and [faqs_generated = 0]. *)
Theorem conditional_stages_run_by_their_guards
  sq st uf ec et gf gs w report w' :
  run_full_analysis sq st uf ec et gf gs w = (inr report, w') ->
  (exists calls,
      log w' = (log w ++ calls)%list /\
      (In CoverageChain (chains_of calls) <-> coverage_stage_runs ec et = true) /\
      (In FAQChain (chains_of calls) <-> faq_stage_runs gf st = true)) /\
  (coverage_stage_runs ec et = false ->
     coverage_score report = 0%float /\
     forall r w0, step2_analyze_coverage r ec et w0 = (inr r, w0)) /\
  (faq_stage_runs gf st = false ->
     faqs report = [] /\ faqs_generated report = 0%Z /\
     forall r w0, step3_generate_faqs r st sq ec gf w0 = (inr r, w0)).
Proof.
  intros H. apply run_full_analysis_shape in H.
  destruct H as (t0 & wa & t1 & wf & r4 & gr & w1 & w2 & earlier & _ & H5 & ->
                 & _ & _ & _ & _ & _ & _ & Hcov & Hfaq & Hchains & Hlog).
  apply now_ok in H5. destruct H5 as [_ L5].
  cbn [coverage_score faqs faqs_generated set_duration_seconds set_summary].
  split; [| split].
  - assert (Hcalls : exists calls,
               log w' = (log w ++ calls)%list /\
               forall c, c <> SuggestionChain ->
                         (In c (chains_of calls) <-> In c (chains_of earlier))).
    { destruct Hlog as [(_ & L & _) | (_ & responses & _ & L & _)].
      - exists earlier. split; [rewrite L5; exact L |]. intros c _. tauto.
      - eexists. split; [rewrite L5, L; reflexivity |]. intros c Hc.
        rewrite chains_of_app, in_app_iff. split; [| tauto].
        intros [Hin | Hin]; [exact Hin |].
        contradiction (Hc (chains_of_suggestions _ _ _ _ Hin)). }
    destruct Hcalls as (calls & Hl & Hin). exists calls. split; [exact Hl |].
    rewrite (Hin CoverageChain) by discriminate.
    rewrite (Hin FAQChain) by discriminate.
    rewrite Hchains.
    destruct (coverage_stage_runs ec et), (faq_stage_runs gf st);
      cbn [In app]; split; split; intros Hx;
      try reflexivity; try discriminate; try tauto;
      repeat match type of Hx with
        | _ \/ _ => destruct Hx as [Hx | Hx]
        | False => contradiction
        | _ = _ => discriminate Hx
        end.
  - intros Hoff. split; [exact (Hcov Hoff) |]. intros r w0.
    unfold step2_analyze_coverage. unfold coverage_stage_runs in Hoff.
    rewrite Hoff. reflexivity.
  - intros Hoff. destruct (Hfaq Hoff) as [Hf Hn].
    split; [exact Hf |]. split; [exact Hn |]. intros r w0.
    unfold step3_generate_faqs. unfold faq_stage_runs in Hoff.
    rewrite Hoff. reflexivity.
Qed.

(** C6. In a completed run with [generate_suggestions] set, the suggestion
    chain is called once for each of the first [min 5 (len gaps)] gaps of the
    detection result, in the order [detect] returned them and after every
    other call of the run; the i-th entry of [report.suggestions] is what
    [suggest_content] made of the answer to the i-th of those calls. *)
Theorem suggestions_follow_first_five_gaps sq st uf ec et gf w report w' :
  run_full_analysis sq st uf ec et gf true w = (inr report, w') ->
  exists gap_result w1 w2 earlier responses,
    detect sq st uf (Some (titles_of ec)) w1 = (inr (Model gap_result), w2) /\
    gaps report = GapDetectionResult.gaps gap_result /\
    log w' = (log w ++ earlier
                ++ combine (map (gap_suggestion_call (titles_of ec))
                              (firstn 5 (gaps report)))
                     (map inr responses))%list /\
    ~ In SuggestionChain (chains_of earlier) /\
    List.length responses = Nat.min 5 (List.length (gaps report)) /\
    Forall2 suggestion_from responses (suggestions report).
Proof.
  intros H. apply run_full_analysis_shape in H.
  destruct H as (t0 & wa & t1 & wf & r4 & gr & w1 & w2 & earlier & _ & H5 & ->
                 & _ & Hdetect & Hgaps & _ & _ & _ & _ & _ & Hchains & Hlog).
  apply now_ok in H5. destruct H5 as [_ L5].
  destruct Hlog as [(Hgs & _) | (_ & responses & Hlen & L & Hall)];
    [discriminate Hgs |].
  cbn [gaps suggestions set_duration_seconds set_summary].
  exists gr, w1, w2, earlier, responses.
  split; [exact Hdetect |]. split; [exact Hgaps |].
  split; [rewrite L5; exact L |]. split; [| split; [| exact Hall]].
  - rewrite Hchains.
    destruct (coverage_stage_runs ec et), (faq_stage_runs gf st);
      cbn [In app]; intros Hx;
      repeat match type of Hx with
        | _ \/ _ => destruct Hx as [Hx | Hx]
        | False => contradiction
        | _ = _ => discriminate Hx
        end.
  - rewrite Hlen. apply length_firstn.
Qed.

(** * Further properties of the agents *)

(** ** Shaping in [detect] *)

(** X1. In the texts [detect] sends, a source that is absent or empty is
    replaced by its placeholder sentence. *)
Theorem detect_placeholders sq st uf ec q t f c :
  detect_texts sq st uf ec = inr (q, t, f, c) ->
  (truthy sq = false -> q = "No search data available") /\
  (truthy st = false -> t = "No ticket data available") /\
  (truthy uf = false -> f = "No feedback data available") /\
  (truthy ec = false -> c = "No existing content").
Proof.
  unfold detect_texts, join_titles. intros H.
  destruct (truthy sq), (truthy st), (truthy uf), (truthy ec);
    repeat match type of H with
      | context [comprehension ?g ?xs] =>
          destruct (comprehension g xs); cbn [rbind] in H; [discriminate H |]
      | context [py_join ?sep ?xs] =>
          destruct (py_join sep xs); cbn [rbind] in H; [discriminate H |]
      end;
    cbn [rbind ok] in H; inversion H; subst;
    repeat split; intros Hoff; try discriminate Hoff; reflexivity.
Qed.

Lemma truthy_cap {A : Type} (n : nat) (xs : option (list A)) :
  truthy (cap (S n) xs) = truthy xs.
Proof. destruct xs as [[| x l] |]; reflexivity. Qed.

Lemma firstn_items_cap {A : Type} (n : nat) (xs : option (list A)) :
  firstn n (items (cap n xs)) = firstn n (items xs).
Proof.
  destruct xs as [l |]; [| reflexivity]. cbn [cap option_map items].
  rewrite firstn_firstn, Nat.min_id. reflexivity.
Qed.

(** X2. The texts [detect] sends depend on the first 50 search queries, the
    first 30 tickets, the first 20 feedback records and the first 20
    content titles only: cutting the four inputs to these lengths beforehand
    changes nothing. *)
Theorem detect_texts_caps sq st uf ec :
  detect_texts sq st uf ec
  = detect_texts (cap 50 sq) (cap 30 st) (cap 20 uf) (cap 20 ec).
Proof.
  unfold detect_texts, join_titles.
  rewrite !truthy_cap, !firstn_items_cap. reflexivity.
Qed.

Lemma substring_prefix_idem n s :
  substring 0 n (substring 0 n s) = substring 0 n s.
Proof.
  revert s. induction n as [| n IH]; intros [| ch s]; cbn [substring];
    try reflexivity.
  rewrite IH. reflexivity.
Qed.

(** X3. A ticket's description enters [detect]'s prompt by its first 200
    characters only: replacing the description by that prefix leaves the
    ticket's block unchanged. *)
Theorem ticket_block_ignores_description_tail t s :
  dict_get "description" t = Some (PStr s) ->
  ticket_block (dict_set "description" (PStr (substring 0 200 s)) t)
  = ticket_block t.
Proof.
  intros H. unfold ticket_block, get.
  rewrite dict_get_set_same, H.
  rewrite !dict_get_set_other by discriminate.
  unfold py_slice, rbind, ok. rewrite substring_prefix_idem. reflexivity.
Qed.

Lemma comprehension_raises {A B : Type} (f : A -> result B) xs :
  (forall x e, In x xs -> f x = inl e -> e = TypeError) ->
  Exists (fun x => exists e, f x = inl e) xs ->
  comprehension f xs = inl TypeError.
Proof.
  induction xs as [| x rest IH]; intros Honly Hex.
  - inversion Hex.
  - cbn [comprehension]. destruct (f x) as [e | y] eqn:Ex; cbn [rbind].
    + rewrite (Honly x e (or_introl eq_refl) Ex). reflexivity.
    + inversion Hex as [? ? [e He] | ? ? Hrest]; subst.
      * rewrite Ex in He. discriminate He.
      * rewrite IH; [reflexivity | | exact Hrest].
        intros x0 e0 Hin. exact (Honly x0 e0 (or_intror Hin)).
Qed.

Lemma comprehension_raises_some {A B : Type} (f : A -> result B) xs :
  Exists (fun x => exists e, f x = inl e) xs ->
  exists e, comprehension f xs = inl e.
Proof.
  induction xs as [| x rest IH]; intros Hex.
  - inversion Hex.
  - cbn [comprehension]. destruct (f x) as [e | y] eqn:Ex; cbn [rbind].
    + exists e. reflexivity.
    + inversion Hex as [? ? [e He] | ? ? Hrest]; subst.
      * rewrite Ex in He. discriminate He.
      * destruct (IH Hrest) as [e ->]. exists e. reflexivity.
Qed.

Lemma comprehension_raises_only {A B : Type} (f : A -> result B) xs e :
  (forall x e, In x xs -> f x = inl e -> e = TypeError) ->
  comprehension f xs = inl e -> e = TypeError.
Proof.
  induction xs as [| x rest IH]; cbn [comprehension]; intros Honly.
  - discriminate.
  - destruct (f x) as [e0 | y] eqn:Ex; cbn [rbind].
    + intros H. inversion H; subst. exact (Honly x e (or_introl eq_refl) Ex).
    + destruct (comprehension f rest) as [e1 | ys]; cbn [rbind].
      * intros H. inversion H; subst. apply IH; [| reflexivity].
        intros x0 e0 Hin. exact (Honly x0 e0 (or_intror Hin)).
      * discriminate.
Qed.

Lemma comprehension_returns {A B : Type} (f : A -> result B) xs :
  Forall (fun x => exists y, f x = inr y) xs ->
  exists ys, comprehension f xs = inr ys.
Proof.
  induction 1 as [| x rest [y Hy] _ [ys IH]]; cbn [comprehension].
  - exists []. reflexivity.
  - rewrite Hy, IH. exists (y :: ys). reflexivity.
Qed.

Lemma py_slice_raises_only n v e :
  is_dict v = false -> py_slice n v = inl e -> e = TypeError.
Proof.
  destruct v; cbn [py_slice is_dict]; intros Hd H; inversion H;
    try reflexivity; discriminate Hd.
Qed.

Lemma ticket_block_raises_only t e :
  is_dict (get t "description" (PStr "")) = false ->
  ticket_block t = inl e -> e = TypeError.
Proof.
  unfold ticket_block. intros Hd.
  destruct (py_slice 200 (get t "description" (PStr ""))) as [e0 | d] eqn:E;
    cbn [rbind]; intros H; inversion H; subst.
  exact (py_slice_raises_only _ _ _ Hd E).
Qed.

Lemma ticket_blocks_raise_only tickets e :
  Forall (fun t => is_dict (get t "description" (PStr "")) = false) tickets ->
  comprehension ticket_block tickets = inl e -> e = TypeError.
Proof.
  intros Hall. apply comprehension_raises_only. intros t e0 Hin.
  apply ticket_block_raises_only.
  exact (proj1 (Forall_forall _ _) Hall t Hin).
Qed.

Lemma ticket_block_raises t :
  unsliceable (get t "description" (PStr "")) = true ->
  exists e, ticket_block t = inl e.
Proof.
  unfold ticket_block. destruct (get t "description" (PStr ""));
    cbn [unsliceable]; intros H; try discriminate H;
    exists TypeError; reflexivity.
Qed.

(** X4. When one of the first 30 tickets has a description that is None or
    a number, [detect] raises while shaping: the completion service is not
    called and the world is left as it was. The exception is a TypeError
    when no description among the first 30 is a dict (slicing a dict raises
    an exception whose kind depends on the interpreter). *)
Theorem detect_raises_on_unsliceable_description sq tickets uf ec w :
  Exists (fun t => unsliceable (get t "description" (PStr "")) = true)
    (firstn 30 tickets) ->
  (exists e, detect sq (Some tickets) uf ec w = (inl e, w)) /\
  (Forall (fun t => is_dict (get t "description" (PStr "")) = false)
     (firstn 30 tickets) ->
   detect sq (Some tickets) uf ec w = (inl TypeError, w)).
Proof.
  intros Hex.
  assert (Ht : truthy (Some tickets) = true).
  { destruct tickets; [inversion Hex | reflexivity]. }
  assert (Hfails : Exists (fun t => exists e, ticket_block t = inl e)
                     (firstn 30 tickets)).
  { eapply Exists_impl; [| exact Hex]. intros t. apply ticket_block_raises. }
  split.
  - destruct (comprehension_raises_some ticket_block _ Hfails) as [e He].
    exists e. unfold detect, bind, lift, detect_texts.
    rewrite Ht. cbn [items]. rewrite He. reflexivity.
  - intros Hnodict. unfold detect, bind, lift, detect_texts.
    rewrite Ht. cbn [items].
    rewrite (comprehension_raises ticket_block (firstn 30 tickets)).
    + reflexivity.
    + intros t e Hin. apply ticket_block_raises_only.
      exact (proj1 (Forall_forall _ _) Hnodict t Hin).
    + exact Hfails.
Qed.

Lemma py_join_returns sep xs :
  Forall (fun v => is_str v = true) xs -> exists text, py_join sep xs = inr text.
Proof.
  intros H. unfold py_join.
  destruct (comprehension_returns
              (fun v => match v with PStr s => ok s | _ => fail TypeError end) xs)
    as [strs Hs].
  - eapply Forall_impl; [| exact H]. intros v Hv. cbn beta in Hv.
    destruct v; try discriminate Hv. eexists. reflexivity.
  - rewrite Hs. eexists. reflexivity.
Qed.

(** X5. Shaping in [detect] succeeds whenever the description of each of
    the first 30 tickets is a str (or missing) and each of the first 20
    content titles is a str: nothing else in the inputs can make it
    raise. *)
Theorem detect_texts_total_on_text_records sq st uf ec :
  Forall (fun t => is_str (get t "description" (PStr "")) = true)
    (firstn 30 (items st)) ->
  Forall (fun v => is_str v = true) (firstn 20 (items ec)) ->
  exists texts, detect_texts sq st uf ec = inr texts.
Proof.
  intros Ht Hc. unfold detect_texts, join_titles.
  destruct (comprehension_returns ticket_block (firstn 30 (items st)))
    as [blocks Hb].
  { eapply Forall_impl; [| exact Ht]. intros t Hs. cbn beta in Hs.
    unfold ticket_block.
    destruct (get t "description" (PStr "")); try discriminate Hs.
    eexists. reflexivity. }
  destruct (py_join_returns nl (firstn 20 (items ec)) Hc) as [text Hj].
  rewrite Hb, Hj. destruct (truthy st), (truthy ec); eexists; reflexivity.
Qed.

(** ** Counts of the single-source methods *)

(** X6. Whenever [detect_from_searches] returns a [GapDetectionResult], its
    [total_queries_analyzed] is the length of the whole query list (also
    beyond the 50 that enter the prompt), whatever the response stated. *)
Theorem detect_from_searches_counts_queries qs ec w r w' :
  detect_from_searches qs ec w = (inr (Model r), w') ->
  GapDetectionResult.total_queries_analyzed r = len qs.
Proof.
  unfold detect_from_searches. intros H. inv_bind H as content w1 Hc.
  inv_lift Hc as E. inv_bind H as v w2 Hcall.
  apply (parsed_ok validate_GapDetectionResult
           (fun d => dict_set "total_queries_analyzed" (PInt (len qs)) d)) in H.
  destruct H as (d & _ & Hv & _).
  apply validate_GapDetectionResult_fields in Hv. destruct Hv as (_ & Hq & _).
  unfold defaulted in Hq. rewrite dict_get_set_same in Hq.
  inversion Hq. reflexivity.
Qed.

(** X7. Whenever [detect_from_tickets] returns a [GapDetectionResult], its
    [total_tickets_analyzed] is the length of the whole ticket list,
    whatever the response stated. *)
Theorem detect_from_tickets_counts_tickets ts ec w r w' :
  detect_from_tickets ts ec w = (inr (Model r), w') ->
  GapDetectionResult.total_tickets_analyzed r = len ts.
Proof.
  unfold detect_from_tickets. intros H. inv_bind H as blocks w0 Hb.
  inv_lift Hb as Eb. inv_bind H as content w1 Hc.
  inv_lift Hc as E. inv_bind H as v w2 Hcall.
  apply (parsed_ok validate_GapDetectionResult
           (fun d => dict_set "total_tickets_analyzed" (PInt (len ts)) d)) in H.
  destruct H as (d & _ & Hv & _).
  apply validate_GapDetectionResult_fields in Hv. destruct Hv as (_ & _ & Ht & _).
  unfold defaulted in Ht. rewrite dict_get_set_same in Ht.
  inversion Ht. reflexivity.
Qed.

(** X8. Whenever [generate_from_tickets] or [generate_from_queries] returns
    a [FAQGenerationResult], its [total_sources_analyzed] is the length of
    the whole ticket list, resp. query list; the documentation passed along
    is not counted and the count the response stated is overwritten. *)
Theorem single_source_generators_count_their_source :
  (forall tickets docs w r w',
      generate_from_tickets tickets docs w = (inr (Model r), w') ->
      FAQGenerationResult.total_sources_analyzed r = len tickets) /\
  (forall queries documentation w r w',
      generate_from_queries queries documentation w = (inr (Model r), w') ->
      FAQGenerationResult.total_sources_analyzed r = len queries).
Proof.
  split.
  - intros tickets docs w r w'. unfold generate_from_tickets. intros H.
    inv_bind H as blocks w0 Hb. inv_lift Hb as Eb.
    inv_bind H as text w1 Hd. inv_lift Hd as Ed. inv_bind H as v w2 Hcall.
    apply (parsed_ok validate_FAQGenerationResult
             (fun d => dict_set "total_sources_analyzed" (PInt (len tickets)) d))
      in H.
    destruct H as (d & _ & Hv & _).
    apply validate_FAQGenerationResult_fields in Hv. destruct Hv as (_ & Hn).
    unfold defaulted in Hn. rewrite dict_get_set_same in Hn.
    inversion Hn. reflexivity.
  - intros queries documentation w r w'. unfold generate_from_queries.
    intros H. inv_bind H as text w1 Hd. inv_lift Hd as Ed.
    inv_bind H as v w2 Hcall.
    apply (parsed_ok validate_FAQGenerationResult
             (fun d => dict_set "total_sources_analyzed" (PInt (len queries)) d))
      in H.
    destruct H as (d & _ & Hv & _).
    apply validate_FAQGenerationResult_fields in Hv. destruct Hv as (_ & Hn).
    unfold defaulted in Hn. rewrite dict_get_set_same in Hn.
    inversion Hn. reflexivity.
Qed.

(** X9. The texts [generate] sends depend on the first 30 tickets, the
    first 40 queries and the first 10 documentation records only. *)
Theorem generate_texts_caps tickets queries documentation :
  generate_texts tickets queries documentation
  = generate_texts (cap 30 tickets) (cap 40 queries) (cap 10 documentation).
Proof.
  unfold generate_texts. rewrite !truthy_cap, !firstn_items_cap. reflexivity.
Qed.

(** ** Validation in [detect] *)

Lemma validate_GapDetectionResult_needs_summary d :
  dict_get "analysis_summary" d = None -> validate_GapDetectionResult d = None.
Proof.
  intros H. unfold validate_GapDetectionResult, required. rewrite H.
  destruct (defaulted (validate_list validate_DetectedGap) "gaps" [] d);
    reflexivity.
Qed.

(** X10. A detection response (a JSON object) without [analysis_summary]
    makes [detect] raise a validation error, whatever else the response
    holds: there is no fallback. *)
Theorem detect_requires_analysis_summary sq st uf ec q t f c w d s :
  detect_texts sq st uf ec = inr (q, t, f, c) ->
  chain_ainvoke (Call GapChain (gap_inputs q t f c)) (svc w) = (inr (PDict d), s) ->
  dict_get "analysis_summary" d = None ->
  fst (detect sq st uf ec w) = inl ValidationError.
Proof.
  intros Htexts Hchain Hmissing.
  unfold detect, bind, lift, ainvoke. rewrite Htexts, Hchain.
  unfold construct. rewrite validate_GapDetectionResult_needs_summary.
  - reflexivity.
  - rewrite !dict_get_set_other by discriminate. exact Hmissing.
Qed.

(** X11. When the detection response has no [gaps] key the result has no
    gaps, and when it has no [coverage_score] key the result's
    [coverage_score] is 0.0: the two fields fall back to their defaults. *)
Theorem detect_defaults_for_missing_keys sq st uf ec w r w' :
  detect sq st uf ec w = (inr (Model r), w') ->
  exists c d,
    ainvoke c w = (inr (PDict d), w') /\
    (dict_get "gaps" d = None -> GapDetectionResult.gaps r = []) /\
    (dict_get "coverage_score" d = None ->
     GapDetectionResult.coverage_score r = 0%float).
Proof.
  intros H. apply detect_inv in H.
  destruct H as (q & t & f & c & d & _ & Hcall & Hv).
  apply validate_GapDetectionResult_fields in Hv.
  destruct Hv as (Hgaps & _ & _ & Hscore). unfold defaulted in Hgaps, Hscore.
  rewrite !dict_get_set_other in Hgaps by discriminate.
  rewrite !dict_get_set_other in Hscore by discriminate.
  eexists; exists d. split; [exact Hcall |]. split; intros Hnone.
  - rewrite Hnone in Hgaps. inversion Hgaps. reflexivity.
  - rewrite Hnone in Hscore. inversion Hscore. reflexivity.
Qed.

(** ** [improve_faq], [analyze_coverage], [suggest_content] *)

(** X12. Whenever [improve_faq] returns a [GeneratedFAQ], it is the
    validated response as it is: the question and the answer were sent
    uncut, an absent or empty feedback list was sent as "No specific
    feedback", and no field of the result is taken from the inputs. *)
Theorem improve_faq_returns_the_response question current_answer feedback
  w r w' :
  improve_faq question current_answer feedback w = (inr (Model r), w') ->
  exists text d,
    (truthy feedback = false -> text = "No specific feedback") /\
    ainvoke (Call ImproveChain
               [ ("question", PStr question);
                 ("current_answer", PStr current_answer);
                 ("feedback", PStr text);
                 ("format_instructions",
                   PStr (get_format_instructions ImproveChain)) ]) w
    = (inr (PDict d), w') /\
    validate_GeneratedFAQ_dict d = Some r.
Proof.
  unfold improve_faq. intros H. inv_bind H as text w1 Ht. inv_lift Ht as E.
  inv_bind H as v w2 Hcall.
  apply (parsed_ok validate_GeneratedFAQ_dict (fun d => d)) in H.
  destruct H as (d & -> & Hv & ->).
  exists text, d. split; [| split; [exact Hcall | exact Hv]].
  intros Hoff. rewrite Hoff in E. inversion E. reflexivity.
Qed.

Lemma join_titles_cap n xs placeholder :
  join_titles (S n) (cap (S n) xs) placeholder = join_titles (S n) xs placeholder.
Proof.
  unfold join_titles. rewrite truthy_cap, firstn_items_cap. reflexivity.
Qed.

(** X13. [analyze_coverage] looks at the first 30 content items only, and
    [suggest_content] at the first 10 existing titles only: cutting the list
    beforehand gives the same call, the same result and the same world. *)
Theorem content_analyzer_caps :
  (forall content_list expected_topics w,
      analyze_coverage content_list expected_topics w
      = analyze_coverage (firstn 30 content_list) expected_topics w) /\
  (forall gap_title gap_description existing_content w,
      suggest_content gap_title gap_description existing_content w
      = suggest_content gap_title gap_description (cap 10 existing_content) w).
Proof.
  split.
  - intros content_list expected_topics w. unfold analyze_coverage.
    rewrite firstn_firstn, Nat.min_id. reflexivity.
  - intros gap_title gap_description existing_content w.
    unfold suggest_content. rewrite join_titles_cap. reflexivity.
Qed.

(** ** The summary *)

Lemma concat_snoc sep (parts : list string) (last : string) :
  parts <> [] ->
  String.concat sep (parts ++ [last])%list
  = String.concat sep parts ++ sep ++ last.
Proof.
  induction parts as [| p rest IH]; [congruence |]. intros _.
  destruct rest as [| p' rest].
  - reflexivity.
  - change (String.concat sep ((p :: p' :: rest) ++ [last])%list)
      with (p ++ sep ++ String.concat sep ((p' :: rest) ++ [last])%list).
    rewrite IH by discriminate.
    change (String.concat sep (p :: p' :: rest))
      with (p ++ sep ++ String.concat sep (p' :: rest)).
    rewrite !string_app_assoc. reflexivity.
Qed.

(** X14. The gaps of the report enter the summary through the gaps whose
    priority is exactly "critical" only: when there is none the summary is
    the one of the report without gaps, and otherwise that summary followed
    by the ATTENTION sentence with their number. *)
Theorem summary_attention_clause report gap_result :
  _generate_summary report gap_result
  = _generate_summary (set_gaps [] report) gap_result
      ++ match critical_gaps report with
         | [] => ""
         | criticals =>
             " ATTENTION: " ++ format_int (len criticals)
               ++ " critical gaps require immediate attention."
         end.
Proof.
  unfold _generate_summary, critical_gaps.
  cbn [set_gaps duration_seconds gaps_found faqs_generated suggestions_created
         coverage_score gaps filter].
  destruct (faqs_generated report =? 0)%Z;
    destruct (suggestions_created report =? 0)%Z;
    destruct (PrimFloat.eqb (coverage_score report) 0);
    destruct (filter _ (gaps report)) as [| g rest];
    unfold append; cbn [app];
    first [ rewrite string_app_nil_r; reflexivity
          | match goal with
            | |- String.concat " " ?l = _ =>
                match l with
                | (?a :: ?b :: nil)%list =>
                    change l with ([a] ++ [b])%list
                | (?a :: ?b :: ?c :: nil)%list =>
                    change l with ([a; b] ++ [c])%list
                | (?a :: ?b :: ?c :: ?d :: nil)%list =>
                    change l with ([a; b; c] ++ [d])%list
                | (?a :: ?b :: ?c :: ?d :: ?e :: nil)%list =>
                    change l with ([a; b; c; d] ++ [e])%list
                | (?a :: ?b :: ?c :: ?d :: ?e :: ?f :: nil)%list =>
                    change l with ([a; b; c; d; e] ++ [f])%list
                end
            end;
            rewrite concat_snoc by discriminate; reflexivity ].
Qed.

(** ** Runs that do not complete *)

Lemma log_detection_start w : log (detection_start w) = log w.
Proof.
  unfold detection_start, new_report, new_uuid, new_timestamp, now, bind, ret.
  destruct (time_time (svc w)) as [t0 s0]. cbn [snd fst svc log].
  destruct (uuid4 s0) as [u s1]. cbn [snd fst svc log].
  destruct (utcnow s1) as [ts s2]. reflexivity.
Qed.

(** A run whose detection does not deliver a model stops there. *)
Lemma run_stops_at_detection sq st uf ec et gf gs w :
  run_full_analysis sq st uf ec et gf gs w
  = match detect sq st uf (Some (titles_of ec)) (detection_start w) with
    | (inl e, w1) => (inl e, w1)
    | (inr (AsIs _), w1) => (inl AttributeError, w1)
    | (inr (Model gap_result), w1) =>
        run_full_analysis sq st uf ec et gf gs w
    end.
Proof.
  destruct (detect sq st uf (Some (titles_of ec)) (detection_start w))
    as [[e | [gr | v]] w1] eqn:Hd; [| reflexivity |];
    revert Hd;
    unfold run_full_analysis, detection_start, new_report, new_uuid,
      new_timestamp, now, bind, ret, ok;
    destruct (time_time (svc w)) as [t0 s0]; cbn [snd fst svc log];
    destruct (uuid4 s0) as [u s1]; cbn [snd fst svc log];
    destruct (utcnow s1) as [ts s2]; cbn [snd fst svc log];
    intros Hd; unfold step1_detect_gaps, bind; rewrite Hd; reflexivity.
Qed.

(** X15. When the detection response is a JSON value other than an object
    (a list, a string, a number, null), [detect] hands it back as it is and
    the full run aborts with AttributeError at [gap_result.gaps], after that
    single call; no report is returned. *)
Theorem run_aborts_on_non_object_detection
  sq st uf ec et gf gs w q t f c v s :
  detect_texts sq st uf (Some (titles_of ec)) = inr (q, t, f, c) ->
  chain_ainvoke (Call GapChain (gap_inputs q t f c)) (svc (detection_start w))
  = (inr v, s) ->
  is_dict v = false ->
  run_full_analysis sq st uf ec et gf gs w
  = (inl AttributeError,
     {| svc := s;
        log := append (log w) (Call GapChain (gap_inputs q t f c), inr v) |}).
Proof.
  intros Htexts Hchain Hv. rewrite run_stops_at_detection.
  unfold detect, bind, lift, ainvoke. rewrite Htexts, Hchain.
  rewrite log_detection_start.
  destruct v; try discriminate Hv; reflexivity.
Qed.

(** X16. When the detection call raises (service or parser failure), the
    full run raises the same exception after that single call: nothing is
    retried and no later stage runs. *)
Theorem run_propagates_detection_failure
  sq st uf ec et gf gs w q t f c e s :
  detect_texts sq st uf (Some (titles_of ec)) = inr (q, t, f, c) ->
  chain_ainvoke (Call GapChain (gap_inputs q t f c)) (svc (detection_start w))
  = (inl e, s) ->
  run_full_analysis sq st uf ec et gf gs w
  = (inl e,
     {| svc := s;
        log := append (log w) (Call GapChain (gap_inputs q t f c), inl e) |}).
Proof.
  intros Htexts Hchain. rewrite run_stops_at_detection.
  unfold detect, bind, lift, ainvoke. rewrite Htexts, Hchain.
  rewrite log_detection_start. reflexivity.
Qed.

Lemma join_raises_only sep xs e : py_join sep xs = inl e -> e = TypeError.
Proof.
  unfold py_join.
  match goal with
  | |- context [comprehension ?g xs] =>
      destruct (comprehension g xs) as [e1 | strs] eqn:Es
  end; cbn [rbind]; [| discriminate].
  intros H. inversion H; subst.
  refine (comprehension_raises_only _ _ _ _ Es).
  intros x e0 _ Hx. destruct x; inversion Hx; reflexivity.
Qed.

Lemma detect_texts_raises_only sq st uf ec e :
  Forall (fun t => is_dict (get t "description" (PStr "")) = false)
    (firstn 30 (items st)) ->
  detect_texts sq st uf ec = inl e -> e = TypeError.
Proof.
  intros Hnodict. unfold detect_texts, join_titles.
  destruct (truthy st).
  - destruct (comprehension ticket_block (firstn 30 (items st)))
      as [e0 | blocks] eqn:Eb; cbn [rbind].
    + intros H. inversion H; subst.
      exact (ticket_blocks_raise_only _ _ Hnodict Eb).
    + destruct (truthy ec); [| discriminate].
      destruct (py_join nl (firstn 20 (items ec))) as [e1 | text] eqn:Ej;
        cbn [rbind]; [| discriminate].
      intros H. inversion H; subst. exact (join_raises_only _ _ _ Ej).
  - cbn [rbind]. destruct (truthy ec); [| discriminate].
    destruct (py_join nl (firstn 20 (items ec))) as [e1 | text] eqn:Ej;
      cbn [rbind]; [| discriminate].
    intros H. inversion H; subst. exact (join_raises_only _ _ _ Ej).
Qed.

Lemma detect_texts_raises_on_title sq st uf titles :
  Exists (fun v => is_str v = false) (firstn 20 titles) ->
  exists e, detect_texts sq st uf (Some titles) = inl e.
Proof.
  intros Hex.
  destruct (detect_texts sq st uf (Some titles)) as [e | texts] eqn:Ht.
  - exists e. reflexivity.
  - exfalso. revert Ht. unfold detect_texts, join_titles, py_join.
    assert (Htruthy : truthy (Some titles) = true).
    { destruct titles; [inversion Hex | reflexivity]. }
    rewrite Htruthy. cbn [items].
    rewrite (comprehension_raises
               (fun v => match v with PStr s => ok s | _ => fail TypeError end)
               (firstn 20 titles)).
    + destruct (if truthy st then _ else _); cbn [rbind]; discriminate.
    + intros x e0 _ Hx. destruct x; inversion Hx; reflexivity.
    + eapply Exists_impl; [| exact Hex]. intros v Hv. cbn beta in Hv.
      destruct v; try discriminate Hv; eexists; reflexivity.
Qed.

(** X17. When one of the first 20 content records has a title that is not
    a str (null, a number, a list), the full run raises while the detection
    prompt is shaped: the completion service is never called. The exception
    is a TypeError when no ticket description among the first 30 is a dict
    (tickets are shaped first, and slicing a dict raises an exception whose
    kind depends on the interpreter). A record without a title does not
    raise: its title is taken as "". *)
Theorem run_raises_on_non_text_title sq st uf content et gf gs w :
  Exists (fun c => is_str (get c "title" (PStr "")) = false)
    (firstn 20 content) ->
  (exists e,
      fst (run_full_analysis sq st uf (Some content) et gf gs w) = inl e) /\
  log (snd (run_full_analysis sq st uf (Some content) et gf gs w)) = log w /\
  (Forall (fun t => is_dict (get t "description" (PStr "")) = false)
     (firstn 30 (items st)) ->
   fst (run_full_analysis sq st uf (Some content) et gf gs w) = inl TypeError).
Proof.
  intros Hex.
  assert (Htexts : exists e,
             detect_texts sq st uf (Some (titles_of (Some content))) = inl e).
  { apply detect_texts_raises_on_title. unfold titles_of.
    assert (Htruthy : truthy (Some content) = true).
    { destruct content; [inversion Hex | reflexivity]. }
    rewrite Htruthy. cbn [items]. rewrite firstn_map.
    apply Exists_exists in Hex. destruct Hex as (c & Hin & Hc).
    apply Exists_exists. exists (get c "title" (PStr "")).
    split; [| exact Hc].
    apply in_map_iff. exists c. split; [reflexivity | exact Hin]. }
  destruct Htexts as [e He].
  rewrite run_stops_at_detection.
  unfold detect, bind, lift. rewrite He. cbn [fst snd].
  split; [exists e; reflexivity |].
  split; [apply log_detection_start |].
  intros Hnodict.
  rewrite (detect_texts_raises_only _ _ _ _ _ Hnodict He). reflexivity.
Qed.

(** ** Completed runs: calls and coverage *)

Lemma chains_of_length entries :
  List.length (chains_of entries) = List.length entries.
Proof. unfold chains_of. apply length_map. Qed.

(** X18. A completed run has called the completion service once for the
    detection, once more for each conditional stage that ran, and once per
    visited gap when suggestions are on: at most 8 calls in all. *)
Theorem run_call_count sq st uf ec et gf gs w report w' :
  run_full_analysis sq st uf ec et gf gs w = (inr report, w') ->
  exists calls,
    log w' = (log w ++ calls)%list /\
    List.length calls
    = (1 + Nat.b2n (coverage_stage_runs ec et) + Nat.b2n (faq_stage_runs gf st)
       + (if gs then Nat.min 5 (List.length (gaps report)) else 0))%nat /\
    (List.length calls <= 8)%nat.
Proof.
  intros H. apply run_full_analysis_shape in H.
  destruct H as (t0 & wa & t1 & wf & r4 & gr & w1 & w2 & earlier & _ & H5 & ->
                 & _ & _ & _ & _ & _ & _ & _ & _ & Hchains & Hlog).
  apply now_ok in H5. destruct H5 as [_ L5].
  cbn [gaps set_duration_seconds set_summary].
  assert (Hearlier : List.length earlier
                     = (1 + Nat.b2n (coverage_stage_runs ec et)
                        + Nat.b2n (faq_stage_runs gf st))%nat).
  { rewrite <- chains_of_length, Hchains.
    destruct (coverage_stage_runs ec et), (faq_stage_runs gf st); reflexivity. }
  assert (Hb : (Nat.b2n (coverage_stage_runs ec et) <= 1
                /\ Nat.b2n (faq_stage_runs gf st) <= 1)%nat).
  { destruct (coverage_stage_runs ec et), (faq_stage_runs gf st);
      cbn [Nat.b2n]; lia. }
  destruct Hlog as [(-> & L & _) | (-> & responses & Hlen & L & _)].
  - exists earlier. split; [rewrite L5; exact L |]. rewrite Hearlier. lia.
  - eexists. split; [rewrite L5, L; reflexivity |].
    rewrite length_app, length_combine, !length_map, Hlen, Nat.min_id, Hearlier.
    rewrite length_firstn. lia.
Qed.

(** X19. When the coverage stage ran, the [coverage_score] of the returned
    report is the validated [coverage_percentage] of the coverage response
    of that run: the later stages do not touch it. *)
Theorem report_coverage_is_the_response_percentage
  sq st uf ec et gf gs w report w' :
  run_full_analysis sq st uf ec et gf gs w = (inr report, w') ->
  coverage_stage_runs ec et = true ->
  exists before c d after,
    log w' = (log w ++ before ++ (c, inr (PDict d)) :: after)%list /\
    chain c = CoverageChain /\
    required validate_float "coverage_percentage" d
      = Some (coverage_score report).
Proof.
  intros H Hruns. apply run_full_analysis_inv in H.
  destruct H as (t0 & wa & r0 & wb & r1 & gr & wc & r2 & wd & r3 & we & r4
                 & wf & t1 & H0 & Hr0 & H1 & H2 & H3 & H4 & H5 & ->).
  pose proof (now_ok _ _ _ H0) as [_ La].
  pose proof (new_report_ok _ _ _ Hr0) as [_ Lb].
  pose proof (step1_log _ _ _ _ _ _ _ _ _ H1) as (e1 & _ & Lc).
  pose proof (step3_log _ _ _ _ _ _ _ _ H3) as (e3 & Le & _).
  pose proof (now_ok _ _ _ H5) as [_ Lg].
  apply step2_ok in H2.
  destruct H2 as [(Hoff & _) | (_ & coverage & Hcov & ->)]; [congruence |].
  apply analyze_coverage_inv in Hcov. destruct Hcov as (c & d & Hc & Hcall & Hv).
  apply validate_CoverageAnalysis_fields in Hv. destruct Hv as (_ & _ & Hp).
  apply ainvoke_ok in Hcall. destruct Hcall as [_ Ld].
  apply step3_ok in H3. apply step4_ok in H4.
  assert (Hf : exists e4, log wf = (log we ++ e4)%list
                          /\ coverage_score r4 = coverage_score r3).
  { destruct H4 as [(_ & -> & ->) | (_ & responses & news & _ & L4 & _ & ->)].
    - exists []. rewrite app_nil_r. split; reflexivity.
    - eexists. split; [exact L4 | reflexivity]. }
  destruct Hf as (e4 & Lf & Hsame4).
  exists [e1], c, d, (e3 ++ e4)%list. split; [| split; [exact Hc |]].
  - rewrite Lg, Lf, Le, Ld, Lc, Lb, La. unfold append.
    rewrite <- !app_assoc. reflexivity.
  - cbn [coverage_score set_duration_seconds set_summary]. rewrite Hsame4.
    destruct H3 as [(_ & -> & _) | (_ & faq_result & _ & ->)]; exact Hp.
Qed.

(** ** The bulk quality analysis *)

Lemma analyze_quality_log content w x w' :
  analyze_quality content w = (inr x, w') ->
  exists entry,
    chain (fst entry) = QualityChain /\ log w' = (log w ++ [entry])%list.
Proof.
  unfold analyze_quality. intros H. inv_bind H as body w1 Hbody.
  inv_lift Hbody as E. inv_bind H as v w2 Hcall.
  apply ainvoke_ok in Hcall. destruct Hcall as [_ Hlog].
  assert (Hw : w' = w2).
  { destruct v; try (apply ret_ok in H; destruct H as [_ ->]; reflexivity).
    apply construct_ok in H. destruct H as (r & _ & _ & ->). reflexivity. }
  subst w'. eexists. split; [| exact Hlog]. reflexivity.
Qed.

Lemma analyze_quality_overwrites content w q w' :
  analyze_quality content w = (inr (Model q), w') -> assessment_of content q.
Proof.
  intros H. apply analyze_quality_inv in H.
  destruct H as (c & d & _ & _ & Hv).
  apply validate_ContentQuality_fields in Hv.
  destruct Hv as (Hid & Htitle & _). unfold required in Hid, Htitle.
  rewrite dict_get_set_other in Hid by discriminate.
  rewrite dict_get_set_same in Hid. rewrite dict_get_set_same in Htitle.
  apply validate_str_inv in Hid. apply validate_str_inv in Htitle.
  split; symmetry; assumption.
Qed.

Lemma quality_loop_ok todo res w res' w' :
  quality_loop todo res w = (inr res', w') ->
  exists news entries,
    res' = ContentAnalysisResult.Build
             (ContentAnalysisResult.quality_assessments res ++ news)%list
             (ContentAnalysisResult.coverage res)
             (ContentAnalysisResult.suggestions res)
             (ContentAnalysisResult.summary res) /\
    Forall2 (fun content x => forall q, x = Model q -> assessment_of content q)
      todo news /\
    log w' = (log w ++ entries)%list /\
    chains_of entries = repeat QualityChain (List.length todo).
Proof.
  revert res w. induction todo as [| content rest IH]; cbn [quality_loop];
    intros res w H.
  - apply ret_ok in H. destruct H as [-> ->]. exists [], [].
    rewrite !app_nil_r. destruct res. repeat split. constructor.
  - inv_bind H as x w1 Hx.
    pose proof (analyze_quality_log _ _ _ _ Hx) as (entry & Hc & Hl).
    apply IH in H. destruct H as (news & entries & -> & Hall & Hlog & Hch).
    exists (x :: news), (entry :: entries).
    cbn [ContentAnalysisResult.append_assessment
           ContentAnalysisResult.quality_assessments
           ContentAnalysisResult.coverage ContentAnalysisResult.suggestions
           ContentAnalysisResult.summary].
    unfold append. rewrite <- app_assoc. split; [reflexivity |].
    split; [| split].
    + constructor; [| exact Hall]. intros q ->.
      exact (analyze_quality_overwrites _ _ _ _ Hx).
    + rewrite Hlog, Hl, <- app_assoc. reflexivity.
    + cbn [List.length repeat]. unfold chains_of in *. cbn [map].
      rewrite Hc, Hch. reflexivity.
Qed.

Lemma overall_scores_ok xs scores :
  comprehension overall_score_of xs = inr scores ->
  exists qs, xs = map Model qs /\ scores = map ContentQuality.overall_score qs.
Proof.
  revert scores. induction xs as [| x rest IH]; cbn [comprehension];
    intros scores H.
  - inversion H. exists []. split; reflexivity.
  - destruct x as [q | v]; cbn [overall_score_of rbind fail ok] in H;
      [| discriminate H].
    destruct (comprehension overall_score_of rest) as [e | ss];
      cbn [rbind ok] in H; [discriminate H |].
    inversion H; subst. destruct (IH ss eq_refl) as (qs & -> & ->).
    exists (q :: qs). split; reflexivity.
Qed.

Lemma Forall2_map_Model {A : Type} (P : A -> ContentQuality.t -> Prop) xs qs :
  Forall2 (fun a x => forall q, x = Model q -> P a q) xs (map Model qs) ->
  Forall2 P xs qs.
Proof.
  revert xs. induction qs as [| q rest IH]; intros xs H; inversion H; subst.
  - constructor.
  - constructor; [auto | apply IH; assumption].
Qed.

(** A completed bulk analysis, taken apart. *)
Lemma analyze_content_quality_inv py_sum content_list w result w' :
  analyze_content_quality py_sum content_list w = (inr result, w') ->
  exists qs entries,
    result = ContentAnalysisResult.Build (map Model qs) None []
               match qs with
               | [] => ""
               | _ =>
                   "Analyzed " ++ format_int (len qs)
                     ++ " pieces of content. Average quality score: "
                     ++ format_2f
                          (PrimFloat.div
                             (py_sum (map ContentQuality.overall_score qs))
                             (PrimFloat.of_uint63 (Uint63.of_Z (len qs))))
               end /\
    Forall2 assessment_of (firstn 20 content_list) qs /\
    log w' = (log w ++ entries)%list /\
    chains_of entries = repeat QualityChain (List.length qs).
Proof.
  unfold analyze_content_quality. intros H. inv_bind H as res w1 Hloop.
  apply quality_loop_ok in Hloop.
  destruct Hloop as (news & entries & -> & Hall & Hlog & Hch).
  cbn [ContentAnalysisResult.quality_assessments ContentAnalysisResult.init
         app] in H.
  destruct news as [| x news].
  - apply ret_ok in H. destruct H as [-> ->]. exists [], entries.
    pose proof (Forall2_length Hall) as Hlen. cbn [List.length] in Hlen.
    rewrite Hlen in Hch. apply length_zero_iff_nil in Hlen. rewrite Hlen.
    split; [reflexivity |]. split; [constructor |].
    split; [exact Hlog | exact Hch].
  - inv_bind H as scores w2 Hs. inv_lift Hs as E.
    apply ret_ok in H. destruct H as [-> ->].
    apply overall_scores_ok in E. destruct E as (qs & Hqs & ->).
    rewrite Hqs in *. apply Forall2_map_Model in Hall.
    exists qs, entries.
    assert (Hlen : List.length (firstn 20 content_list) = List.length qs)
      by exact (Forall2_length Hall).
    rewrite Hlen in Hch.
    split; [| split; [exact Hall | split; [exact Hlog | exact Hch]]].
    unfold len. rewrite length_map.
    destruct qs as [| q qs]; [discriminate Hqs | reflexivity].
Qed.

(** X20. A completed bulk quality analysis has assessed the first 20 content
    items, in order, with one completion-service call each; every assessment
    is a [ContentQuality] that carries the id and the title of its content
    item. *)
Theorem bulk_quality_assessments py_sum content_list w result w' :
  analyze_content_quality py_sum content_list w = (inr result, w') ->
  exists qs entries,
    ContentAnalysisResult.quality_assessments result = map Model qs /\
    List.length qs = Nat.min 20 (List.length content_list) /\
    Forall2 assessment_of (firstn 20 content_list) qs /\
    log w' = (log w ++ entries)%list /\
    chains_of entries = repeat QualityChain (List.length qs).
Proof.
  intros H. apply analyze_content_quality_inv in H.
  destruct H as (qs & entries & -> & Hall & Hlog & Hch).
  exists qs, entries. split; [reflexivity |]. split.
  - rewrite <- (Forall2_length Hall). apply length_firstn.
  - repeat split; assumption.
Qed.

(** X21. The summary of a completed bulk quality analysis is empty when no
    content was given; otherwise it states the number of assessed items (at
    most 20) and the mean of their overall scores with two decimals. *)
Theorem bulk_quality_summary py_sum content_list w result w' :
  analyze_content_quality py_sum content_list w = (inr result, w') ->
  (content_list = [] -> ContentAnalysisResult.summary result = "") /\
  (content_list <> [] ->
   exists qs,
     ContentAnalysisResult.quality_assessments result = map Model qs /\
     ContentAnalysisResult.summary result
     = "Analyzed " ++ format_int (Z.of_nat (Nat.min 20 (List.length content_list)))
         ++ " pieces of content. Average quality score: "
         ++ format_2f
              (PrimFloat.div (py_sum (map ContentQuality.overall_score qs))
                 (PrimFloat.of_uint63
                    (Uint63.of_Z (Z.of_nat (Nat.min 20 (List.length content_list))))))).
Proof.
  intros H. apply analyze_content_quality_inv in H.
  destruct H as (qs & entries & -> & Hall & _).
  pose proof (Forall2_length Hall) as Hlen. rewrite length_firstn in Hlen.
  cbn [ContentAnalysisResult.summary ContentAnalysisResult.quality_assessments].
  split.
  - intros ->. destruct qs; [reflexivity | discriminate Hlen].
  - intros Hne. exists qs. split; [reflexivity |].
    destruct qs as [| q qs].
    + destruct content_list; [congruence | discriminate Hlen].
    + unfold len. rewrite <- Hlen. reflexivity.
Qed.

(** ** The single-stage entry points *)

(** X22. [detect] calls the completion service exactly once when shaping
    succeeds, also when the response then fails validation, and not at all
    when shaping raises: nothing is retried. *)
Theorem detect_calls_once sq st uf ec w :
  match detect_texts sq st uf ec with
  | inl _ => snd (detect sq st uf ec w) = w
  | inr (q, t, f, c) =>
      exists outcome,
        log (snd (detect sq st uf ec w))
        = append (log w) (Call GapChain (gap_inputs q t f c), outcome)
  end.
Proof.
  rewrite detect_world.
  destruct (detect_texts sq st uf ec) as [e | [[[q t] f] c]]; [reflexivity |].
  unfold ainvoke. destruct (chain_ainvoke _ (svc w)) as [outcome s].
  exists outcome. reflexivity.
Qed.

Lemma detect_texts_without_feedback sq st ec q t f c :
  detect_texts sq st None ec = inr (q, t, f, c) ->
  f = "No feedback data available".
Proof.
  unfold detect_texts. cbn [truthy].
  destruct (if truthy st then _ else _) as [e | tt]; cbn [rbind];
    [discriminate |].
  destruct (join_titles 20 ec "No existing content") as [e | cc]; cbn [rbind];
    [discriminate |].
  intros H. inversion H. reflexivity.
Qed.

Lemma generate_texts_without_documentation tickets queries t q docs :
  generate_texts tickets queries None = inr (t, q, docs) ->
  docs = "No existing documentation".
Proof.
  unfold generate_texts. cbn [truthy].
  destruct (if truthy tickets then _ else _) as [e | tt]; cbn [rbind];
    [discriminate |].
  intros H. inversion H. reflexivity.
Qed.

(** X23. The detect-only entry point never sends user feedback (the prompt
    carries the placeholder) and the FAQ-only entry point never sends
    documentation; their results have the counts [detect] and [generate]
    force: the true lengths of the two lists supplied. *)
Theorem single_stage_entry_points :
  (forall sq st ec w r w',
      detect_gaps_only sq st ec w = (inr (Model r), w') ->
      GapDetectionResult.total_queries_analyzed r = len_or_0 sq /\
      GapDetectionResult.total_tickets_analyzed r = len_or_0 st /\
      exists q t c d,
        ainvoke (Call GapChain (gap_inputs q t "No feedback data available" c)) w
        = (inr (PDict d), w')) /\
  (forall st sq w r w',
      generate_faqs_only st sq w = (inr (Model r), w') ->
      FAQGenerationResult.total_sources_analyzed r
      = (len_or_0 st + len_or_0 sq)%Z /\
      exists t q d,
        ainvoke (Call FAQChain (faq_inputs t q "No existing documentation")) w
        = (inr (PDict d), w')).
Proof.
  split.
  - intros sq st ec w r w' H. unfold detect_gaps_only in H.
    pose proof (detect_counts _ _ _ _ _ _ _ H) as [Hq Ht].
    apply detect_inv in H. destruct H as (q & t & f & c & d & Htexts & Hcall & _).
    apply detect_texts_without_feedback in Htexts. subst f.
    split; [exact Hq |]. split; [exact Ht |]. exists q, t, c, d. exact Hcall.
  - intros st sq w r w' H. unfold generate_faqs_only in H.
    apply generate_inv in H. destruct H as (t & q & docs & d & Htexts & Hcall & Hv).
    apply generate_texts_without_documentation in Htexts. subst docs.
    apply validate_FAQGenerationResult_fields in Hv. destruct Hv as (_ & Hn).
    unfold defaulted in Hn. rewrite dict_get_set_same in Hn.
    split; [inversion Hn; reflexivity |]. exists t, q, d. exact Hcall.
Qed.

(** * Scores of any value *)


















End Properties.

(** * The claims at concrete inputs *)

Import AnalysisReport.

#[local] Existing Instance scenario_runtime.

Ltac run_then_apply lemma :=
  eexists; eexists;
  match goal with
  | |- ?Hyp /\ _ =>
      let Hrun := fresh "Hrun" in
      assert (Hrun : Hyp) by (lazy; reflexivity);
      split; [exact Hrun | eapply lemma; try unfold scenario_run in Hrun; exact Hrun]
  end.

(** The end-to-end scenario of the specification. *)
Example end_to_end_scenario :
  gaps_found (report_of scenario_run) = 1%Z /\
  coverage_score (report_of scenario_run) = 50%float /\
  faqs_generated (report_of scenario_run) = 0%Z /\
  suggestions_created (report_of scenario_run) = 1%Z /\
  summary (report_of scenario_run)
  = "Analysis completed in 0.0 seconds. Identified 1 knowledge gaps. Created 1 content suggestions. Current coverage: 50.0%.".
Proof. vm_compute. repeat split; reflexivity. Qed.


(** The scores of the quality response above, read back from the result. *)
Lemma scores_taken_from_response_unchecked_witness :
  exists q w',
    analyze_quality billing_faq
      (fresh 0%nat) = (inr (Model q), w') /\
    exists c d,
      ainvoke c (fresh 0%nat) = (inr (PDict d), w') /\
      required validate_float "completeness_score" d
        = Some (ContentQuality.completeness_score q) /\
      required validate_float "clarity_score" d
        = Some (ContentQuality.clarity_score q) /\
      required validate_float "accuracy_score" d
        = Some (ContentQuality.accuracy_score q) /\
      required validate_float "freshness_score" d
        = Some (ContentQuality.freshness_score q) /\
      required validate_float "overall_score" d
        = Some (ContentQuality.overall_score q).
Proof.
  run_then_apply
    (proj1 (proj2 (proj2 (proj2
       (scores_taken_from_response_unchecked (R := scenario_runtime)))))).
Defined.

(** C2, counterexample. With [total_topics = 2] and [covered_topics = 1] the
    specified percentage is 1/2*100 = 50.0, yet a response stating 10.0 is
    returned with 10.0, 40 away from it; and with [total_topics = 0] the
    percentage returned is whatever the response states, 0.0 for one
    service and 100.0 for another. *)
Lemma coverage_percentage_follows_the_response :
  option_map (fun r => (CoverageAnalysis.total_topics r,
                        CoverageAnalysis.covered_topics r,
                        CoverageAnalysis.coverage_percentage r))
    (model_of (analyze_coverage (R := stub (coverage_stub 2 1 10))
                 [billing_faq] two_topics
                 (fresh (R := stub (coverage_stub 2 1 10)) 0%nat)))
  = Some (2%Z, 1%Z, 10%float) /\
  PrimFloat.mul (PrimFloat.div 1 2) 100 = 50%float /\
  PrimFloat.abs (PrimFloat.sub 10 50) = 40%float /\
  option_map (fun r => (CoverageAnalysis.total_topics r,
                        CoverageAnalysis.coverage_percentage r))
    (model_of (analyze_coverage (R := stub (coverage_stub 0 0 0))
                 [billing_faq] []
                 (fresh (R := stub (coverage_stub 0 0 0)) 0%nat)))
  = Some (0%Z, 0%float) /\
  option_map (fun r => (CoverageAnalysis.total_topics r,
                        CoverageAnalysis.coverage_percentage r))
    (model_of (analyze_coverage (R := stub (coverage_stub 0 0 100))
                 [billing_faq] []
                 (fresh (R := stub (coverage_stub 0 0 100)) 0%nat)))
  = Some (0%Z, 100%float).
Proof. vm_compute. repeat split; reflexivity. Qed.

(** C2, witness. *)
Lemma coverage_percentage_is_the_response_value_witness :
  exists r w',
    analyze_coverage (R := coverage_10_runtime) [billing_faq] two_topics
      (fresh (R := coverage_10_runtime) 0%nat) = (inr (Model r), w') /\
    exists c d,
      chain c = CoverageChain /\
      ainvoke (R := coverage_10_runtime) c (fresh (R := coverage_10_runtime) 0%nat)
        = (inr (PDict d), w') /\
      required (validate_int (R := coverage_10_runtime)) "total_topics" d
        = Some (CoverageAnalysis.total_topics r) /\
      required (validate_int (R := coverage_10_runtime)) "covered_topics" d
        = Some (CoverageAnalysis.covered_topics r) /\
      required (validate_float (R := coverage_10_runtime)) "coverage_percentage" d
        = Some (CoverageAnalysis.coverage_percentage r).
Proof.
  run_then_apply
    (coverage_percentage_is_the_response_value (R := coverage_10_runtime)).
Defined.

(** C3, the failing input. The response states 99 queries and 7 tickets.
    [detect] forces both counts to the true lengths (3 and 0);
    [detect_from_searches] forces the query count only and returns 7
    tickets though no ticket was supplied; [detect_from_tickets] forces the
    ticket count only and returns 99 queries though no query was
    supplied. *)
Lemma single_source_detectors_keep_a_stated_count :
  option_map (fun r => (GapDetectionResult.total_queries_analyzed r,
                        GapDetectionResult.total_tickets_analyzed r))
    (model_of (detect (Some three_queries) None None None
                 (fresh 0%nat)))
  = Some (3%Z, 0%Z) /\
  option_map (fun r => (GapDetectionResult.total_queries_analyzed r,
                        GapDetectionResult.total_tickets_analyzed r))
    (model_of (detect_from_searches three_queries None
                 (fresh 0%nat)))
  = Some (3%Z, 7%Z) /\
  option_map (fun r => (GapDetectionResult.total_queries_analyzed r,
                        GapDetectionResult.total_tickets_analyzed r))
    (model_of (detect_from_tickets one_ticket None
                 (fresh 0%nat)))
  = Some (99%Z, 1%Z).
Proof. vm_compute. repeat split; reflexivity. Qed.

(** C4, witness: the response echoes "echoed-id" and "Echoed title"; the
    result has the record's "c-1" and "Billing FAQ". *)
Lemma analyze_quality_identity_from_record_witness :
  exists q w',
    analyze_quality billing_faq
      (fresh 0%nat) = (inr (Model q), w') /\
    (PStr (ContentQuality.content_id q) = get billing_faq "id" (PStr "") /\
     PStr (ContentQuality.title q) = get billing_faq "title" (PStr "Untitled")).
Proof.
  run_then_apply
    (analyze_quality_identity_from_record (R := scenario_runtime)).
Defined.



(** Sixty queries and sixty-three with the same first fifty: the call
    [detect_from_searches] logs carries fifty lines in both cases. *)
Example detect_from_searches_sends_fifty_lines :
  map (fun entry =>
         match get (inputs (fst entry)) "search_queries" PNone with
         | PStr text =>
             List.length (filter (Ascii.eqb (ascii_of_nat 10))
                            (list_ascii_of_string text))
         | _ => 0%nat
         end)
    (log (snd (detect_from_searches (sixty_queries ++ three_queries)%list None
                 (fresh 0%nat))))
  = [49%nat].
Proof. vm_compute. reflexivity. Qed.

(** The first fifty of sixty queries followed by three others give the
    prompt of the sixty. *)
Example other_tail_same_prompt :
  detect_prompt (Some (firstn 50 sixty_queries ++ three_queries)%list)
    None None None
  = detect_prompt (Some sixty_queries) None None None.
Proof. vm_compute. reflexivity. Qed.

(** C6, witness: the end-to-end scenario, one gap. *)
Lemma suggestions_follow_first_five_gaps_witness :
  exists report w',
    scenario_run = (inr report, w') /\
    exists gap_result w1 w2 earlier responses,
      detect (Some three_queries) (Some []) None
        (Some (titles_of (Some [billing_faq]))) w1
      = (inr (Model gap_result), w2) /\
      gaps report = GapDetectionResult.gaps gap_result /\
      log w' = (log (fresh 0%nat) ++ earlier
                  ++ combine (map (gap_suggestion_call
                                     (titles_of (Some [billing_faq])))
                                (firstn 5 (gaps report)))
                       (map inr responses))%list /\
      ~ In SuggestionChain (chains_of earlier) /\
      List.length responses = Nat.min 5 (List.length (gaps report)) /\
      Forall2 suggestion_from responses (suggestions report).
Proof.
  run_then_apply (suggestions_follow_first_five_gaps (R := scenario_runtime)).
Defined.

(** Seven gaps, low priority first: five suggestion calls, for the first
    five gaps in the order of the response; the three critical gaps do not
    move forward. *)
Example seven_gaps_five_suggestions :
  gaps_found (report_of many_gaps_run) = 7%Z /\
  suggestions_created (report_of many_gaps_run) = 5%Z /\
  map (fun entry => get (inputs (fst entry)) "gap_title" PNone)
    (filter (fun entry => match chain (fst entry) with
                          | SuggestionChain => true
                          | _ => false
                          end)
       (log (snd many_gaps_run)))
  = [PStr "g1"; PStr "g2"; PStr "g3"; PStr "g4"; PStr "g5"].
Proof. vm_compute. repeat split; reflexivity. Qed.

(** C7, witness: in the scenario the coverage stage runs and the FAQ stage
    is skipped. *)
Lemma conditional_stages_run_by_their_guards_witness :
  exists report w',
    scenario_run = (inr report, w') /\
    ((exists calls,
         log w' = (log (fresh 0%nat) ++ calls)%list /\
         (In CoverageChain (chains_of calls)
          <-> coverage_stage_runs (Some [billing_faq]) (Some two_topics) = true) /\
         (In FAQChain (chains_of calls)
          <-> faq_stage_runs false (Some []) = true)) /\
     (coverage_stage_runs (Some [billing_faq]) (Some two_topics) = false ->
        coverage_score report = 0%float /\
        forall r w0,
          step2_analyze_coverage r (Some [billing_faq]) (Some two_topics) w0
          = (inr r, w0)) /\
     (faq_stage_runs false (Some []) = false ->
        faqs report = [] /\ faqs_generated report = 0%Z /\
        forall r w0,
          step3_generate_faqs r (Some []) (Some three_queries)
            (Some [billing_faq]) false w0 = (inr r, w0))).
Proof.
  run_then_apply (conditional_stages_run_by_their_guards (R := scenario_runtime)).
Defined.

(** C8, witness. *)
Lemma report_counts_are_lengths_witness :
  exists report w',
    scenario_run = (inr report, w') /\
    (gaps_found report = len (gaps report) /\
     faqs_generated report = len (faqs report) /\
     suggestions_created report = len (suggestions report)).
Proof.
  run_then_apply (report_counts_are_lengths (R := scenario_runtime)).
Defined.

(** C10, witness: the stub's clock advances by one second per event; the run
    takes 6 seconds and its summary says 0.0. *)
Lemma summary_is_composed_before_duration_witness :
  exists report w',
    scenario_run = (inr report, w') /\
    exists unfinished gap_result rest t0 t1 s0 wf,
      summary report = _generate_summary unfinished gap_result /\
      duration_seconds unfinished = 0%float /\
      summary report
      = "Analysis completed in 0.0 seconds. Identified "
          ++ format_int (gaps_found report) ++ " knowledge gaps." ++ rest /\
      time_time (svc (fresh 0%nat)) = (t0, s0) /\
      time_time (svc wf) = (t1, svc w') /\
      duration_seconds report = PrimFloat.sub t1 t0.
Proof.
  run_then_apply (summary_is_composed_before_duration (R := scenario_runtime)).
Defined.

Example scenario_duration :
  duration_seconds (report_of scenario_run) = 6%float.
Proof. vm_compute. reflexivity. Qed.

(** * The further properties at concrete inputs *)

(** X1, witness: no source at all. *)
Lemma detect_placeholders_witness :
  exists q t f c,
    detect_texts None (Some []) None None = inr (q, t, f, c) /\
    ((truthy (@None (list pydict)) = false -> q = "No search data available") /\
     (truthy (Some (@nil pydict)) = false -> t = "No ticket data available") /\
     (truthy (@None (list pydict)) = false -> f = "No feedback data available") /\
     (truthy (@None (list pyval)) = false -> c = "No existing content")).
Proof.
  do 4 eexists.
  match goal with
  | |- ?Hyp /\ _ =>
      assert (H : Hyp) by (lazy; reflexivity);
      split; [exact H | exact (detect_placeholders (R := scenario_runtime)
                                 _ _ _ _ _ _ _ _ H)]
  end.
Defined.

(** X3, witness. *)
Lemma ticket_block_ignores_description_tail_witness :
  dict_get "description"
    [("subject", PStr "Cannot export"); ("description", PStr "Export fails")]
  = Some (PStr "Export fails") /\
  ticket_block
    (dict_set "description" (PStr (substring 0 200 "Export fails"))
       [("subject", PStr "Cannot export"); ("description", PStr "Export fails")])
  = ticket_block
      [("subject", PStr "Cannot export"); ("description", PStr "Export fails")].
Proof.
  split; [reflexivity |].
  apply (ticket_block_ignores_description_tail (R := scenario_runtime)).
  reflexivity.
Defined.

(** X4, witness: a ticket with a null description. *)
Lemma detect_raises_on_unsliceable_description_witness :
  Exists (fun t => unsliceable (get t "description" (PStr "")) = true)
    (firstn 30 [ticket_without_text]) /\
  ((exists e,
       detect (Some three_queries) (Some [ticket_without_text]) None None
         (fresh 0%nat) = (inl e, fresh 0%nat)) /\
   (Forall (fun t => is_dict (get t "description" (PStr "")) = false)
      (firstn 30 [ticket_without_text]) ->
    detect (Some three_queries) (Some [ticket_without_text]) None None
      (fresh 0%nat)
    = (inl TypeError, fresh 0%nat))).
Proof.
  assert (H : Exists (fun t => unsliceable (get t "description" (PStr "")) = true)
                (firstn 30 [ticket_without_text])).
  { apply Exists_cons_hd. reflexivity. }
  split; [exact H |].
  exact (detect_raises_on_unsliceable_description (R := scenario_runtime)
           _ _ _ _ _ H).
Defined.

(** The ticket with the null description raises TypeError: its hypothesis
    on dict descriptions holds. *)
Example null_description_raises_TypeError :
  detect (Some three_queries) (Some [ticket_without_text]) None None
    (fresh 0%nat)
  = (inl TypeError, fresh 0%nat).
Proof. reflexivity. Qed.

(** X5, witness. *)
Lemma detect_texts_total_on_text_records_witness :
  Forall (fun t => is_str (get t "description" (PStr "")) = true)
    (firstn 30 (items (Some one_ticket))) /\
  Forall (fun v => is_str v = true)
    (firstn 20 (items (Some [PStr "Billing FAQ"]))) /\
  exists texts,
    detect_texts (Some three_queries) (Some one_ticket) None
      (Some [PStr "Billing FAQ"]) = inr texts.
Proof.
  assert (H1 : Forall (fun t => is_str (get t "description" (PStr "")) = true)
                 (firstn 30 (items (Some one_ticket)))).
  { repeat constructor. }
  assert (H2 : Forall (fun v => is_str v = true)
                 (firstn 20 (items (Some [PStr "Billing FAQ"])))).
  { repeat constructor. }
  split; [exact H1 |]. split; [exact H2 |].
  exact (detect_texts_total_on_text_records (R := scenario_runtime)
           _ _ _ _ H1 H2).
Defined.

(** X6, witness: the response states 99 queries, three were supplied. *)
Lemma detect_from_searches_counts_queries_witness :
  exists r w',
    detect_from_searches three_queries None (fresh 0%nat) = (inr (Model r), w') /\
    GapDetectionResult.total_queries_analyzed r = len three_queries.
Proof.
  run_then_apply (detect_from_searches_counts_queries (R := scenario_runtime)).
Defined.

(** X7, witness. *)
Lemma detect_from_tickets_counts_tickets_witness :
  exists r w',
    detect_from_tickets one_ticket None (fresh 0%nat) = (inr (Model r), w') /\
    GapDetectionResult.total_tickets_analyzed r = len one_ticket.
Proof.
  run_then_apply (detect_from_tickets_counts_tickets (R := scenario_runtime)).
Defined.

(** X8, witness: the response states 500 sources, one ticket was
    supplied. *)
Lemma single_source_generators_count_their_source_witness :
  exists r w',
    generate_from_tickets one_ticket None (fresh 0%nat) = (inr (Model r), w') /\
    FAQGenerationResult.total_sources_analyzed r = len one_ticket.
Proof.
  run_then_apply
    (proj1 (single_source_generators_count_their_source (R := scenario_runtime))).
Defined.

(** X10, witness: an object with gaps and no summary. *)
Lemma detect_requires_analysis_summary_witness :
  exists q t f c d s,
    detect_texts (R := no_summary_runtime) (Some three_queries) None None None
    = inr (q, t, f, c) /\
    chain_ainvoke (Runtime := no_summary_runtime)
      (Call GapChain (gap_inputs (R := no_summary_runtime) q t f c))
      (svc (fresh (R := no_summary_runtime) 0%nat))
    = (inr (PDict d), s) /\
    dict_get "analysis_summary" d = None /\
    fst (detect (R := no_summary_runtime) (Some three_queries) None None None
           (fresh (R := no_summary_runtime) 0%nat))
    = inl ValidationError.
Proof.
  do 6 eexists.
  match goal with
  | |- ?A /\ ?B /\ ?C /\ _ =>
      assert (H1 : A) by (lazy; reflexivity);
      assert (H2 : B) by (lazy; reflexivity);
      assert (H3 : C) by (lazy; reflexivity);
      split; [exact H1 |]; split; [exact H2 |]; split; [exact H3 |];
      exact (detect_requires_analysis_summary (R := no_summary_runtime)
               _ _ _ _ _ _ _ _ _ _ _ H1 H2 H3)
  end.
Defined.

(** X11, witness: an object with nothing but the summary. *)
Lemma detect_defaults_for_missing_keys_witness :
  exists r w',
    detect (R := summary_only_runtime) (Some three_queries) None None None
      (fresh (R := summary_only_runtime) 0%nat) = (inr (Model r), w') /\
    exists c d,
      ainvoke (R := summary_only_runtime) c
        (fresh (R := summary_only_runtime) 0%nat) = (inr (PDict d), w') /\
      (dict_get "gaps" d = None -> GapDetectionResult.gaps r = []) /\
      (dict_get "coverage_score" d = None ->
       GapDetectionResult.coverage_score r = 0%float).
Proof.
  run_then_apply (detect_defaults_for_missing_keys (R := summary_only_runtime)).
Defined.

(** X12, witness: the returned question is the model's, not the one sent. *)
Lemma improve_faq_returns_the_response_witness :
  exists r w',
    improve_faq (R := improve_runtime) "How to export?" "Use the export page."
      None (fresh (R := improve_runtime) 0%nat) = (inr (Model r), w') /\
    exists text d,
      (truthy (@None (list pyval)) = false -> text = "No specific feedback") /\
      ainvoke (R := improve_runtime)
        (Call ImproveChain
           [ ("question", PStr "How to export?");
             ("current_answer", PStr "Use the export page.");
             ("feedback", PStr text);
             ("format_instructions",
               PStr (get_format_instructions (Runtime := improve_runtime)
                       ImproveChain)) ])
        (fresh (R := improve_runtime) 0%nat)
      = (inr (PDict d), w') /\
      validate_GeneratedFAQ_dict (R := improve_runtime) d = Some r.
Proof.
  run_then_apply (improve_faq_returns_the_response (R := improve_runtime)).
Defined.

Example improved_question_is_the_models :
  option_map GeneratedFAQ.question
    (model_of (improve_faq (R := improve_runtime) "How to export?"
                 "Use the export page." None
                 (fresh (R := improve_runtime) 0%nat)))
  = Some "How can I export my data?".
Proof. vm_compute. reflexivity. Qed.

(** The critical gaps of the seven: three, counted by exact priority. *)
Example seven_gaps_summary :
  summary (report_of many_gaps_run)
  = "Analysis completed in 0.0 seconds. Identified 7 knowledge gaps. Created 5 content suggestions. Current coverage: 50.0%. ATTENTION: 3 critical gaps require immediate attention.".
Proof. vm_compute. reflexivity. Qed.

(** X15, witness: the service answers with a JSON list. *)
Lemma run_aborts_on_non_object_detection_witness :
  exists q t f c v s,
    detect_texts (R := list_runtime) (Some three_queries) None None
      (Some (titles_of None)) = inr (q, t, f, c) /\
    chain_ainvoke (Runtime := list_runtime)
      (Call GapChain (gap_inputs (R := list_runtime) q t f c))
      (svc (detection_start (fresh (R := list_runtime) 0%nat)))
    = (inr v, s) /\
    is_dict v = false /\
    run_full_analysis (R := list_runtime) (Some three_queries) None None None
      None true true (fresh (R := list_runtime) 0%nat)
    = (inl AttributeError,
       {| svc := s;
          log := append (log (fresh (R := list_runtime) 0%nat))
                   (Call GapChain (gap_inputs (R := list_runtime) q t f c),
                    inr v) |}).
Proof.
  do 6 eexists.
  match goal with
  | |- ?A /\ ?B /\ ?C /\ _ =>
      assert (H1 : A) by (lazy; reflexivity);
      assert (H2 : B) by (lazy; reflexivity);
      assert (H3 : C) by (lazy; reflexivity);
      split; [exact H1 |]; split; [exact H2 |]; split; [exact H3 |];
      exact (run_aborts_on_non_object_detection (R := list_runtime)
               _ _ _ _ _ _ _ _ _ _ _ _ _ _ H1 H2 H3)
  end.
Defined.

(** X16, witness: the service is down. *)
Lemma run_propagates_detection_failure_witness :
  exists q t f c e s,
    detect_texts (R := failing_runtime) (Some three_queries) None None
      (Some (titles_of None)) = inr (q, t, f, c) /\
    chain_ainvoke (Runtime := failing_runtime)
      (Call GapChain (gap_inputs (R := failing_runtime) q t f c))
      (svc (detection_start (fresh (R := failing_runtime) 0%nat)))
    = (inl e, s) /\
    run_full_analysis (R := failing_runtime) (Some three_queries) None None
      None None true true (fresh (R := failing_runtime) 0%nat)
    = (inl e,
       {| svc := s;
          log := append (log (fresh (R := failing_runtime) 0%nat))
                   (Call GapChain (gap_inputs (R := failing_runtime) q t f c),
                    inl e) |}).
Proof.
  do 6 eexists.
  match goal with
  | |- ?A /\ ?B /\ _ =>
      assert (H1 : A) by (lazy; reflexivity);
      assert (H2 : B) by (lazy; reflexivity);
      split; [exact H1 |]; split; [exact H2 |];
      exact (run_propagates_detection_failure (R := failing_runtime)
               _ _ _ _ _ _ _ _ _ _ _ _ _ _ H1 H2)
  end.
Defined.

(** X17, witness: a content record with a null title. *)
Lemma run_raises_on_non_text_title_witness :
  Exists (fun c => is_str (get c "title" (PStr "")) = false)
    (firstn 20 [billing_faq; untitled_record]) /\
  ((exists e,
       fst (run_full_analysis (Some three_queries) (Some one_ticket) None
              (Some [billing_faq; untitled_record]) (Some two_topics) true true
              (fresh 0%nat)) = inl e) /\
   log (snd (run_full_analysis (Some three_queries) (Some one_ticket) None
               (Some [billing_faq; untitled_record]) (Some two_topics) true true
               (fresh 0%nat))) = log (fresh 0%nat) /\
   (Forall (fun t => is_dict (get t "description" (PStr "")) = false)
      (firstn 30 (items (Some one_ticket))) ->
    fst (run_full_analysis (Some three_queries) (Some one_ticket) None
           (Some [billing_faq; untitled_record]) (Some two_topics) true true
           (fresh 0%nat)) = inl TypeError)).
Proof.
  assert (H : Exists (fun c => is_str (get c "title" (PStr "")) = false)
                (firstn 20 [billing_faq; untitled_record])).
  { apply Exists_cons_tl. apply Exists_cons_hd. reflexivity. }
  split; [exact H |].
  exact (run_raises_on_non_text_title (R := scenario_runtime)
           _ _ _ _ _ _ _ _ H).
Defined.

(** With one ticket of text and a null title the run raises TypeError. *)
Example null_title_raises_TypeError :
  fst (run_full_analysis (Some three_queries) (Some one_ticket) None
         (Some [billing_faq; untitled_record]) (Some two_topics) true true
         (fresh 0%nat)) = inl TypeError.
Proof. vm_compute. reflexivity. Qed.

(** X18, witness: the scenario makes three calls. *)
Lemma run_call_count_witness :
  exists report w',
    scenario_run = (inr report, w') /\
    exists calls,
      log w' = (log (fresh 0%nat) ++ calls)%list /\
      List.length calls
      = (1 + Nat.b2n (coverage_stage_runs (Some [billing_faq]) (Some two_topics))
         + Nat.b2n (faq_stage_runs false (Some []))
         + (if true then Nat.min 5 (List.length (gaps report)) else 0))%nat /\
      (List.length calls <= 8)%nat.
Proof.
  do 2 eexists.
  match goal with
  | |- ?A /\ _ =>
      assert (H1 : A) by (lazy; reflexivity);
      split; [exact H1 |];
      unfold scenario_run in H1;
      exact (run_call_count (R := scenario_runtime) _ _ _ _ _ _ _ _ _ _ H1)
  end.
Defined.

(** X19, witness. *)
Lemma report_coverage_is_the_response_percentage_witness :
  exists report w',
    scenario_run = (inr report, w') /\
    coverage_stage_runs (Some [billing_faq]) (Some two_topics) = true /\
    exists before c d after,
      log w' = (log (fresh 0%nat) ++ before ++ (c, inr (PDict d)) :: after)%list /\
      chain c = CoverageChain /\
      required validate_float "coverage_percentage" d
        = Some (coverage_score report).
Proof.
  do 2 eexists.
  match goal with
  | |- ?A /\ ?B /\ _ =>
      assert (H1 : A) by (lazy; reflexivity);
      assert (H2 : B) by reflexivity;
      split; [exact H1 |]; split; [exact H2 |];
      unfold scenario_run in H1;
      exact (report_coverage_is_the_response_percentage (R := scenario_runtime)
               _ _ _ _ _ _ _ _ _ _ H1 H2)
  end.
Defined.

(** X20, witness: two content items. *)
Lemma bulk_quality_assessments_witness :
  exists result w',
    analyze_content_quality fold_sum [billing_faq; security_guide]
      (fresh 0%nat) = (inr result, w') /\
    exists qs entries,
      ContentAnalysisResult.quality_assessments result = map Model qs /\
      List.length qs
      = Nat.min 20 (List.length [billing_faq; security_guide]) /\
      Forall2 assessment_of (firstn 20 [billing_faq; security_guide]) qs /\
      log w' = (log (fresh 0%nat) ++ entries)%list /\
      chains_of entries = repeat QualityChain (List.length qs).
Proof.
  run_then_apply (bulk_quality_assessments (R := scenario_runtime)).
Defined.

(** X21, witness. *)
Lemma bulk_quality_summary_witness :
  exists result w',
    analyze_content_quality fold_sum [billing_faq; security_guide]
      (fresh 0%nat) = (inr result, w') /\
    ((([billing_faq; security_guide] : list pydict) = [] ->
      ContentAnalysisResult.summary result = "") /\
     (([billing_faq; security_guide] : list pydict) <> [] ->
      exists qs,
        ContentAnalysisResult.quality_assessments result = map Model qs /\
        ContentAnalysisResult.summary result
        = "Analyzed "
            ++ format_int
                 (Z.of_nat (Nat.min 20 (List.length [billing_faq; security_guide])))
            ++ " pieces of content. Average quality score: "
            ++ format_2f
                 (PrimFloat.div
                    (fold_sum (map ContentQuality.overall_score qs))
                    (PrimFloat.of_uint63
                       (Uint63.of_Z
                          (Z.of_nat
                             (Nat.min 20
                                (List.length [billing_faq; security_guide])))))))).
Proof.
  run_then_apply (bulk_quality_summary (R := scenario_runtime)).
Defined.

(** Two items scored 1.5 overall by the stub: the mean is printed as 1.50. *)
Example bulk_quality_of_two :
  option_map ContentAnalysisResult.summary
    (match fst (analyze_content_quality fold_sum [billing_faq; security_guide]
                  (fresh 0%nat)) with
     | inr result => Some result
     | inl _ => None
     end)
  = Some "Analyzed 2 pieces of content. Average quality score: 1.50".
Proof. vm_compute. reflexivity. Qed.

(** No content: no call and an empty summary. *)
Example bulk_quality_of_nothing :
  analyze_content_quality fold_sum [] (fresh 0%nat)
  = (inr ContentAnalysisResult.init, fresh 0%nat).
Proof. reflexivity. Qed.


(** A detection response whose gap has an impact score of -3.0 and one
    whose gap has 1000000.0: both are returned with the score as stated. *)
Example impact_scores_far_outside :
  map (fun x =>
         let service :=
           constant_runtime
             (ok (gap_response
                    [PDict (dict_set "impact_score" (PFloat x)
                              (response_dict (gap_item "g" "low")))])) in
         option_map
           (fun r => map DetectedGap.impact_score (GapDetectionResult.gaps r))
           (model_of
              (detect (R := service) (Some three_queries) None None None
                 (fresh (R := service) 0%nat))))
    [(-3)%float; 1000000%float]
  = [Some [(-3)%float]; Some [1000000%float]].
Proof. vm_compute. reflexivity. Qed.
